(** * Inference normalisation layer of the SDN intrusion-detection service

    A shallow embedding of
      - [ml/inference.py]: [preprocess_input], [load_model_from_folder],
        [predict_threat];
      - [ml/ml_service.py]: [extract_features], [predict_batch].

    Conventions of the embedding.
      - A floating-point number is its value: a rational, an infinity or
        NaN (zeros carry no sign).  Storing a value in binary32 or binary64
        rounds it to the nearest value of the format, a tie going to the
        even one, and sends a magnitude that rounds out of the format to
        an infinity.  A Python [int] is an integer of any size; its
        conversion to [float] and its true division raise OverflowError out
        of the binary64 range.  The entries of an input matrix and the
        Python floats of a flow record are floating-point values.  Sums and
        means of model outputs are taken exactly.
      - A Python call either returns or raises; what it prints is kept in
        order.  The monad [Py] carries both.
      - A loaded artifact is an object probed by [hasattr]: each capability
        is present or absent, and a present capability is a function of its
        argument (artifacts are never mutated after loading). *)

From Stdlib Require Import QArith Qround Qabs Qpower ZArith List Bool Ascii String Lia Lqa.
From stdpp Require Import base option list strings pretty gmap.

Local Open Scope string_scope.
Local Open Scope list_scope.

(** ** Numbers *)

Inductive number : Type :=
  | Fin (q : Q)
  | PosInf
  | NegInf
  | NaN.

Definition isinf (x : number) : bool :=
  match x with PosInf | NegInf => true | _ => false end.

Definition isnan (x : number) : bool :=
  match x with NaN => true | _ => false end.

Definition Qlt_bool (a b : Q) : bool := negb (Qle_bool b a).


Definition num_ltb (x y : number) : bool :=
  match x, y with
  | NaN, _ | _, NaN => false
  | Fin a, Fin b => Qlt_bool a b
  | NegInf, NegInf => false
  | PosInf, _ => false
  | NegInf, _ => true
  | _, PosInf => true
  | _, NegInf => false
  end.

Definition num_eqb (x y : number) : bool :=
  match x, y with
  | Fin a, Fin b => Qeq_bool a b
  | PosInf, PosInf | NegInf, NegInf => true
  | _, _ => false
  end.

Definition num_of_Z (z : Z) : number := Fin (inject_Z z).
Definition num_of_nat (n : nat) : number := num_of_Z (Z.of_nat n).

Definition num_add (x y : number) : number :=
  match x, y with
  | NaN, _ | _, NaN => NaN
  | PosInf, NegInf | NegInf, PosInf => NaN
  | PosInf, _ | _, PosInf => PosInf
  | NegInf, _ | _, NegInf => NegInf
  | Fin a, Fin b => Fin (Qred (a + b))
  end.

(** IEEE division before rounding (zeros carry no sign here: a zero divisor
    counts as +0). *)
Definition num_div (x y : number) : number :=
  match x, y with
  | NaN, _ | _, NaN => NaN
  | Fin a, Fin b =>
      if Qeq_bool b 0 then
        (if Qeq_bool a 0 then NaN else if Qlt_bool 0 a then PosInf else NegInf)
      else Fin (Qred (a / b))
  | Fin _, _ => Fin 0
  | PosInf, Fin b => if Qlt_bool b 0 then NegInf else PosInf
  | NegInf, Fin b => if Qlt_bool b 0 then PosInf else NegInf
  | _, _ => NaN
  end.

(** [np.maximum]: a NaN operand wins. *)
Definition num_max (x y : number) : number :=
  if isnan x then x else if isnan y then y
  else if num_ltb x y then y else x.


(** ** Binary floating point *)

Definition pow2 (e : Z) : Q := Qpower 2 e.

(** The nearest integer, a tie going to the even one. *)
Definition rne (x : Q) : Z :=
  let f := Qfloor x in
  match Qcompare (x - inject_Z f) (1 # 2) with
  | Lt => f
  | Gt => (f + 1)%Z
  | Eq => if Z.even f then f else (f + 1)%Z
  end.

(** The exponent [k] with [2^k <= a < 2^(k+1)], for a positive [a]. *)
Definition floor_log2 (a : Q) : Z :=
  let k := (Z.log2 (Qnum a) - Z.log2 (Zpos (Qden a)))%Z in
  if Qle_bool (pow2 k) a then k else (k - 1)%Z.

(** The nearest multiple of a power of two that is written with [p] bits,
    the power being at least [2^emin] (the subnormal values); a tie goes
    to the even multiple. *)
Definition round_binary (p emin : Z) (q : Q) : Q :=
  if Qeq_bool q 0 then 0%Q
  else
    let e := Z.max emin (floor_log2 (Qabs q) - (p - 1)) in
    Qred (inject_Z (rne (q / pow2 e)) * pow2 e).

(** A binary format: the bits of precision, the exponent of the least
    positive value and the power of two that finite magnitudes stay below. *)
Record format : Type := Format { prec : Z; emin : Z; emax : Z }.

Definition binary32 : format := Format 24 (-149) 128.
Definition binary64 : format := Format 53 (-1074) 1024.

(** Rounding to nearest; no value when the rounded magnitude leaves the
    format. *)
Definition round_to (f : format) (q : Q) : option Q :=
  let r := round_binary (prec f) (emin f) q in
  if Qle_bool (pow2 (emax f)) (Qabs r) then None else Some r.

(** Storing a number in a format: overflow gives an infinity. *)
Definition store (f : format) (x : number) : number :=
  match x with
  | Fin q =>
      match round_to f q with
      | Some r => Fin r
      | None => if Qlt_bool 0 q then PosInf else NegInf
      end
  | _ => x
  end.

(** Magnitudes from here on round out of the format: half a unit in the
    last place above the largest finite value. *)
Definition overflow_threshold (f : format) : Q :=
  (inject_Z (2 ^ (prec f + 1) - 1) * pow2 (emax f - prec f - 1))%Q.

(** [astype('float32')] on one entry, and a value as a Python [float]. *)
Definition float32 (x : number) : number := store binary32 x.
Definition float64 (x : number) : number := store binary64 x.

Definition matrix : Type := list (list number).

(** ** Exceptions, printing *)

Inductive exn_class : Type :=
  | AttributeError | ValueError | TypeError | IndexError | OverflowError
  | ZeroDivisionError | RuntimeError | FileNotFoundError | OtherError.

Record exn : Type := Exn { exn_cls : exn_class; exn_msg : string }.

Inductive outcome (A : Type) : Type :=
  | Return (a : A)
  | Raise (e : exn).
Arguments Return {A} a.
Arguments Raise {A} e.

Definition obind {A B} (o : outcome A) (k : A -> outcome B) : outcome B :=
  match o with
  | Return a => k a
  | Raise e => Raise e
  end.

Notation "'let*' x ':=' o 'in' k" := (obind o (fun x => k))
  (at level 10, x name, o at level 100, k at level 200).

(** A computation: the lines it printed, then how it ended. *)
Record Py (A : Type) : Type := MkPy { stdout : list string; result : outcome A }.
Arguments MkPy {A} stdout result.
Arguments stdout {A} p.
Arguments result {A} p.

Definition ret {A} (a : A) : Py A := MkPy [] (Return a).
Definition raise {A} (e : exn) : Py A := MkPy [] (Raise e).
Definition print (line : string) : Py unit := MkPy [line] (Return tt).
Definition lift {A} (o : outcome A) : Py A := MkPy [] o.

Definition bind {A B} (m : Py A) (k : A -> Py B) : Py B :=
  match result m with
  | Return a => MkPy (stdout m ++ stdout (k a)) (result (k a))
  | Raise e => MkPy (stdout m) (Raise e)
  end.

(** [try: body  except Exception as e: handler e] *)
Definition try_except {A} (body : Py A) (handler : exn -> Py A) : Py A :=
  match result body with
  | Return a => body
  | Raise e => MkPy (stdout body ++ stdout (handler e)) (result (handler e))
  end.

Declare Scope py_scope.
Delimit Scope py_scope with py.
Notation "x <- m ;; k" := (bind m (fun x => k))
  (at level 100, m at next level, right associativity) : py_scope.
Notation "m ;;; k" := (bind m (fun _ => k))
  (at level 100, right associativity) : py_scope.
Local Open Scope py_scope.

(** ** Objects *)

(** What a model hands back.  A NumPy array is its shape and its entries in
    row-major order. *)
Record ndarray : Type := NdArray { shape : list nat; data : list number }.

Inductive pyobj : Type :=
  | PyArray (a : ndarray)           (* numpy.ndarray *)
  | PyList (items : list ndarray)   (* a list of numbers, lists or arrays *)
  | NpScalar (x : number)           (* numpy scalar: array interface, not an ndarray *)
  | PyNumber (x : number)           (* int or float *)
  | PyOther.                        (* None, str, ...: no array interface, equal to no number *)

(** A loaded artifact, seen through [hasattr]. *)
Record artifact : Type := Artifact {
  predict_proba : option (matrix -> outcome pyobj);
  predict : option (matrix -> outcome pyobj);
  transform : option (matrix -> outcome matrix)
}.

Definition attribute_error (name : string) : exn :=
  Exn AttributeError ("object has no attribute '" ++ name ++ "'").

(** ** Preprocessor ([inference.preprocess_input]) *)

Inductive array_like : Type :=
  | DataFrame (values : matrix)
  | ArrayLike (values : matrix).

Definition astype_float32 (X : matrix) : matrix := map (map float32) X.

(** [np.isinf(X).any(axis=1)] *)
Definition isinf_any_axis1 (X : matrix) : list bool := map (existsb isinf) X.

(** [X[mask]] with a boolean mask over the rows *)
Fixpoint boolean_index (X : matrix) (mask : list bool) : matrix :=
  match X, mask with
  | row :: X', b :: mask' =>
      if b then row :: boolean_index X' mask' else boolean_index X' mask'
  | _, _ => []
  end.

(** [np.sum] of a boolean vector *)
Definition count_true (mask : list bool) : nat := length (List.filter id mask).

Definition removed_warning (n : nat) : string :=
  "Warning: " ++ pretty n ++ " samples with infinite values were removed.".

Definition call_transform (scaler : artifact) (X : matrix) : Py matrix :=
  match transform scaler with
  | Some f => lift (f X)
  | None => raise (attribute_error "transform")
  end.

Definition preprocess_input (X : array_like) (scaler : option artifact) : Py matrix :=
  let X := match X with
           | DataFrame values => astype_float32 values
           | ArrayLike values => astype_float32 values
           end in
  let finite_mask := map negb (isinf_any_axis1 X) in
  X <- (if negb (forallb id finite_mask) then
          print (removed_warning (count_true (map negb finite_mask))) ;;;
          ret (boolean_index X finite_mask)
        else ret X) ;;
  match scaler with
  | Some s => call_transform s X
  | None => ret X
  end.

(** ** NumPy operations used by the normaliser *)

Definition ndim (a : ndarray) : nat := length (shape a).
Definition size (a : ndarray) : nat := fold_right Nat.mul 1%nat (shape a).

(** The entries fill the shape. *)
Definition well_shaped (a : ndarray) : Prop := length (data a) = size a.

Definition value_error (msg : string) : exn := Exn ValueError msg.

(** [np.array(items)] on a list: stacks equally shaped items along a new
    first axis. *)
Definition shape_eqb (s t : list nat) : bool := bool_decide (s = t).

Definition np_array (items : list ndarray) : outcome ndarray :=
  match items with
  | [] => Return (NdArray [0%nat] [])
  | a :: _ =>
      if forallb (fun b => shape_eqb (shape b) (shape a)) items
      then Return (NdArray (length items :: shape a) (concat (map data items)))
      else Raise (value_error "setting an array element with a sequence. The requested array has an inhomogeneous shape")
  end.

(** [np.max(a)] *)
Definition np_max (a : ndarray) : outcome number :=
  match data a with
  | [] => Raise (value_error "zero-size array to reduction operation maximum which has no identity")
  | x :: xs => Return (fold_left num_max xs x)
  end.

(** [a.squeeze().mean()]: the mean of all entries (NaN for none). *)
Definition np_sum (xs : list number) : number := fold_left num_add xs (Fin 0).

Definition squeeze_mean (a : ndarray) : number :=
  num_div (np_sum (data a)) (num_of_nat (length (data a))).

(** First index of the largest entry, a NaN counting as largest. *)
Fixpoint argmax_from (best : nat) (bestv : number) (next : nat) (xs : list number) : nat :=
  match xs with
  | [] => best
  | x :: xs' =>
      if isnan bestv then best
      else if isnan x || num_ltb bestv x then argmax_from next x (S next) xs'
      else argmax_from best bestv (S next) xs'
  end.

Definition argmax (xs : list number) : nat :=
  match xs with
  | [] => 0%nat
  | x :: xs' => argmax_from 0 x 1 xs'
  end.

(** [k] consecutive blocks of [n] entries. *)
Fixpoint blocks {A} (k n : nat) (l : list A) : list (list A) :=
  match k with
  | O => []
  | S k' => take n l :: blocks k' n (drop n l)
  end.

(** [np.argmax(a, axis=1)] for [a.ndim > 1]. *)
Definition argmax_axis1 (a : ndarray) : outcome ndarray :=
  match shape a with
  | d0 :: d1 :: rest =>
      if Nat.eqb d1 0 then Raise (value_error "attempt to get argmax of an empty sequence")
      else
        let inner := fold_right Nat.mul 1%nat rest in
        let per_row (row : list number) : list number :=
          let lanes := blocks d1 inner row in
          map (fun r => num_of_nat (argmax (map (fun lane => nth r lane NaN) lanes)))
              (seq 0 inner) in
        Return (NdArray (d0 :: rest) (concat (map per_row (blocks d0 (d1 * inner) (data a)))))
  | _ => Raise (Exn OtherError "axis 1 is out of bounds")
  end.

(** [int(x)] on a float *)
Definition py_int (x : number) : outcome Z :=
  match x with
  | Fin q => Return (Z.quot (Qnum q) (Zpos (Qden q)))
  | NaN => Raise (value_error "cannot convert float NaN to integer")
  | _ => Raise (Exn OverflowError "cannot convert float infinity to integer")
  end.

(** [pred.squeeze().item() if pred.size == 1 else int(pred[0])]; [pred[0]]
    is an entry of a vector and a sub-array otherwise, and [int] accepts no
    sub-array (NumPy 2 converts 0-dimensional arrays only). *)
Definition scalar_of_prediction (a : ndarray) : outcome number :=
  if Nat.eqb (size a) 1 then
    match data a with
    | x :: _ => Return x
    | [] => Raise (value_error "can only convert an array of size 1 to a Python scalar")
    end
  else
    match shape a with
    | d0 :: rest =>
        if Nat.eqb d0 0 then
          Raise (Exn IndexError "index 0 is out of bounds for axis 0 with size 0")
        else
          match rest, data a with
          | [], x :: _ => let* z := py_int x in Return (num_of_Z z)
          | [], [] => Raise (Exn IndexError "index 0 is out of bounds")
          | _ :: _, _ =>
              Raise (Exn TypeError "only 0-dimensional arrays can be converted to Python scalars")
          end
    | [] => Raise (Exn IndexError "too many indices for array")
    end.

(** The array interface of what [predict_proba] returned:
    [np.array(proba)] for a list, then [proba.ndim]. *)
Definition proba_array (proba : pyobj) : outcome ndarray :=
  match proba with
  | PyArray a => Return a
  | PyList items => np_array items
  | NpScalar x => Return (NdArray [] [x])
  | PyNumber _ | PyOther => Raise (attribute_error "ndim")
  end.

(** [pred == 1]; by then an array has been reduced to a scalar. *)
Definition equals_one (pred : pyobj) : bool :=
  match pred with
  | PyNumber x | NpScalar x => num_eqb x (Fin 1)
  | PyArray a => match data a with [x] => num_eqb x (Fin 1) | _ => false end
  | PyList _ | PyOther => false
  end.

(** ** Values of flow records and feature dictionaries *)

(** [VNum] is a [float], [VInt] an [int]. *)
#[warnings="-register-all"]
Inductive pyval : Type :=
  | VNum (x : number)
  | VInt (n : Z)
  | VBool (b : bool)
  | VStr (s : string)
  | VNone
  | VList (items : list pyval)
  | VDict (entries : list (string * pyval)).

(** The operand of an arithmetic operation; [bool] is a subclass of
    [int]. *)
Inductive pynum : Type :=
  | PInt (n : Z)
  | PFloat (x : number).

Definition as_pynum (v : pyval) : option pynum :=
  match v with
  | VNum x => Some (PFloat x)
  | VInt n => Some (PInt n)
  | VBool b => Some (PInt (if b then 1 else 0))
  | _ => None
  end.

(** The value of a number, as comparisons see it. *)
Definition as_number (v : pyval) : option number :=
  match as_pynum v with
  | Some (PFloat x) => Some x
  | Some (PInt n) => Some (num_of_Z n)
  | None => None
  end.

(** [float(n)] for an [int] *)
Definition float_of_int (n : Z) : outcome number :=
  match round_to binary64 (inject_Z n) with
  | Some r => Return (Fin r)
  | None => Raise (Exn OverflowError "int too large to convert to float")
  end.

Definition float_of_pynum (a : pynum) : outcome number :=
  match a with
  | PInt n => float_of_int n
  | PFloat x => Return x
  end.

(** The world outside the program. *)
Record Env : Type := {
  abspath : string -> string;                          (* os.path.abspath *)
  path_exists : string -> bool;                        (* os.path.exists *)
  joblib_load : string -> outcome (option artifact);   (* joblib.load; [None] is Python's None *)
  keras : option (string -> outcome artifact);         (* keras.models.load_model, if TensorFlow imported *)
  float_of_string : string -> option number;           (* float(s) *)
  now_isoformat : string                               (* datetime.now().isoformat() *)
}.

(** One entry of [np.array(..., dtype='float32')]. *)
Definition float32_of_pyval (env : Env) (v : pyval) : outcome number :=
  match v with
  | VNum x => Return (float32 x)
  | VInt n => let* x := float_of_int n in Return (float32 x)
  | VBool b => Return (Fin (if b then 1 else 0))
  | VNone => Return NaN
  | VStr s =>
      match float_of_string env s with
      | Some x => Return (float32 x)
      | None => Raise (value_error ("could not convert string to float: '" ++ s ++ "'"))
      end
  | VList _ => Raise (value_error "setting an array element with a sequence.")
  | VDict _ => Raise (Exn TypeError "float() argument must be a string or a real number, not 'dict'")
  end.

Fixpoint outcome_map {A B} (f : A -> outcome B) (l : list A) : outcome (list B) :=
  match l with
  | [] => Return []
  | x :: l' =>
      match f x with
      | Raise e => Raise e
      | Return y =>
          match outcome_map f l' with
          | Raise e => Raise e
          | Return ys => Return (y :: ys)
          end
      end
  end.

(** ** Prediction normaliser ([inference.predict_threat]) *)

Record decision : Type := Decision {
  prediction : string;
  confidence : number;
  is_malicious : bool;
  attack_type : string;
  inference_time : Z
}.

Definition feature_names : list string :=
  ["packet_count"; "byte_count"; "duration"; "packets_per_second";
   "bytes_per_second"; "avg_packet_size"; "protocol_num"; "src_port"; "dst_port"].

(** [features.get(name, 0)] *)
Definition feature_get (features : gmap string pyval) (name : string) : pyval :=
  default (VInt 0) (features !! name).

Definition has_predict_proba (model : option artifact) : option (matrix -> outcome pyobj) :=
  model ≫= predict_proba.

Definition call_predict (model : option artifact) (X : matrix) : Py pyobj :=
  match model ≫= predict with
  | Some f => lift (f X)
  | None => raise (attribute_error "predict")
  end.

Definition one_half : number := Fin (1 # 2).

(** Lines 178-192: the confidence score. *)
Definition confidence_of (model : option artifact) (X : matrix) : Py number :=
  match has_predict_proba model with
  | Some f =>
      proba <- lift (f X) ;;
      proba <- lift (proba_array proba) ;;
      if Nat.eqb (ndim proba) 2 && Nat.ltb 1 (nth 1 (shape proba) 0%nat)
      then lift (np_max proba)
      else ret (squeeze_mean proba)
  | None =>
      try_except
        (raw <- call_predict model X ;;
         match raw with
         | PyArray a => lift (np_max a)
         | _ => ret one_half
         end)
        (fun _ => ret one_half)
  end.

(** Lines 195-203: the predicted class. *)
Definition class_of (model : option artifact) (X : matrix) : Py pyobj :=
  try_except
    (pred <- call_predict model X ;;
     pred <- match pred with
             | PyArray a =>
                 if Nat.ltb 1 (ndim a)
                 then (a' <- lift (argmax_axis1 a) ;; ret (PyArray a'))
                 else ret pred
             | _ => ret pred
             end ;;
     match pred with
     | PyArray a => x <- lift (scalar_of_prediction a) ;; ret (PyNumber x)
     | _ => ret pred
     end)
    (fun _ => ret (PyNumber (Fin 0))).

Definition make_decision (conf : number) (pred : pyobj) : decision :=
  let is_malicious := equals_one pred in
  {| prediction := if is_malicious then "malicious" else "benign";
     confidence := conf;
     is_malicious := is_malicious;
     attack_type := if is_malicious then "anomaly" else "benign";
     inference_time := 0 |}.

(** Lines 161-175: the feature row, the default scaler, the preprocessing. *)
Definition prepare_features (env : Env) (features : gmap string pyval) : Py matrix :=
  row <- lift (outcome_map (float32_of_pyval env) (map (feature_get features) feature_names)) ;;
  let feature_values := [row] in
  scaler <- (if path_exists env "scaler.joblib"
             then lift (joblib_load env "scaler.joblib")
             else ret None) ;;
  preprocess_input (ArrayLike feature_values) scaler.

Definition predict_threat (env : Env) (features : gmap string pyval)
    (model : option artifact) : Py decision :=
  X <- prepare_features env features ;;
  conf <- confidence_of model X ;;
  pred <- class_of model X ;;
  ret (make_decision conf pred).

(** ** Artifact loader ([inference.load_model_from_folder]) *)

Record context : Type := Context {
  ctx_folder : string;
  ctx_scaler : option artifact;
  ctx_label_encoder : option artifact;
  ctx_framework : option string
}.

(** [os.path.join(folder, name)] for a relative [name] *)
Definition ends_with_slash (s : string) : bool :=
  match rev (list_ascii_of_string s) with
  | c :: _ => Ascii.eqb c "/"%char
  | [] => false
  end.

Definition path_join (folder name : string) : string :=
  if String.eqb folder "" then name
  else if ends_with_slash folder then folder ++ name
  else folder ++ "/" ++ name.

(** [joblib.load(path) if os.path.exists(path)], else the value is kept *)
Definition load_optional (env : Env) (path : string) : Py (option artifact) :=
  if path_exists env path then lift (joblib_load env path) else ret None.

Definition keras_unavailable : exn :=
  Exn RuntimeError "TensorFlow/Keras not available for .h5 model".

Definition no_model_found : exn :=
  Exn FileNotFoundError "No supported model file found in folder".

(** The loop over [h5_candidates]; [None] when it falls through. *)
Fixpoint load_h5 (env : Env) (folder : string) (candidates : list string)
    : Py (option (artifact * context)) :=
  match candidates with
  | [] => ret None
  | h5 :: rest =>
      if path_exists env h5 then
        match keras env with
        | None => raise keras_unavailable
        | Some load_model =>
            model <- lift (load_model h5) ;;
            scaler <- load_optional env (path_join folder "scaler.joblib") ;;
            label_encoder <- load_optional env (path_join folder "label_encoder.joblib") ;;
            ret (Some (model, Context folder scaler label_encoder (Some "tensorflow")))
        end
      else load_h5 env folder rest
  end.

(** The loop over [skl_candidates], left at the first existing file. *)
Fixpoint load_skl (env : Env) (candidates : list string) : Py (option artifact) :=
  match candidates with
  | [] => ret None
  | p :: rest =>
      if path_exists env p then lift (joblib_load env p)
      else load_skl env rest
  end.

Definition load_model_from_folder (env : Env) (folder_path : string)
    : Py (artifact * context) :=
  let folder := abspath env (if String.eqb folder_path "" then "." else folder_path) in
  let h5_candidates := [path_join folder "model.h5"; path_join folder "keras_model.h5"] in
  found <- load_h5 env folder h5_candidates ;;
  match found with
  | Some loaded => ret loaded
  | None =>
      let skl_candidates :=
        [path_join folder "model.pkl";
         path_join folder "random_forest_model.joblib";
         path_join folder "model.joblib"] in
      model_obj <- load_skl env skl_candidates ;;
      match model_obj with
      | None => raise no_model_found
      | Some model =>
          scaler <- load_optional env (path_join folder "scaler.joblib") ;;
          label_encoder <- load_optional env (path_join folder "label_encoder.joblib") ;;
          ret (model, Context folder scaler label_encoder (Some "scikit-learn"))
      end
  end.

(** ** Feature extractor ([ml_service.extract_features]) *)

Fixpoint assoc_get (entries : list (string * pyval)) (key : string) : option pyval :=
  match entries with
  | [] => None
  | (k, v) :: rest => if String.eqb k key then Some v else assoc_get rest key
  end.

(** [flow_data.get(key, dflt)] *)
Definition dict_get (flow_data : pyval) (key : string) (dflt : pyval) : outcome pyval :=
  match flow_data with
  | VDict entries => Return (default dflt (assoc_get entries key))
  | _ => Raise (attribute_error "get")
  end.

Definition type_error (msg : string) : exn := Exn TypeError msg.

(** [v > 0] *)
Definition greater_than_zero (v : pyval) : outcome bool :=
  match as_number v with
  | Some x => Return (num_ltb (Fin 0) x)
  | None => Raise (type_error "'>' not supported between these instances")
  end.

(** [a / b] on two [int]s: the quotient rounded once, to the nearest
    [float]. *)
Definition int_true_divide (m n : Z) : outcome pyval :=
  if Z.eqb n 0 then Raise (Exn ZeroDivisionError "division by zero")
  else
    match round_to binary64 (inject_Z m / inject_Z n) with
    | Some r => Return (VNum (Fin r))
    | None => Raise (Exn OverflowError "integer division result too large for a float")
    end.

(** [a / b] on two [float]s *)
Definition float_true_divide (x y : number) : outcome pyval :=
  if num_eqb y (Fin 0) then Raise (Exn ZeroDivisionError "float division by zero")
  else Return (VNum (float64 (num_div x y))).

(** [a / b]: an [int] that meets a [float] is converted first, the left
    operand before the right one. *)
Definition true_divide (a b : pyval) : outcome pyval :=
  match as_pynum a, as_pynum b with
  | Some (PInt m), Some (PInt n) => int_true_divide m n
  | Some x, Some y =>
      let* x := float_of_pynum x in
      let* y := float_of_pynum y in
      float_true_divide x y
  | _, _ => Raise (type_error "unsupported operand type(s) for /")
  end.

(** [protocol_map.get(protocol, 0)] with
    [protocol_map = {'TCP': 6, 'UDP': 17, 'ICMP': 1}] *)
Definition protocol_map : gmap string Z :=
  <["TCP" := 6%Z]> (<["UDP" := 17%Z]> (<["ICMP" := 1%Z]> ∅)).

Definition protocol_lookup (protocol : pyval) : outcome pyval :=
  match protocol with
  | VStr s => Return (VInt (default 0%Z (protocol_map !! s)))
  | VNum _ | VInt _ | VBool _ | VNone => Return (VInt 0)
  | VList _ => Raise (type_error "unhashable type: 'list'")
  | VDict _ => Raise (type_error "unhashable type: 'dict'")
  end.

Definition zero : pyval := VInt 0.

Definition extraction_body (flow_data : pyval) : outcome (gmap string pyval) :=
  let* packet_count := dict_get flow_data "packet_count" zero in
  let* byte_count := dict_get flow_data "byte_count" zero in
  let* duration := dict_get flow_data "duration_seconds" zero in
  let* protocol := dict_get flow_data "protocol" (VStr "TCP") in
  let* src_port := dict_get flow_data "source_port" zero in
  let* dst_port := dict_get flow_data "destination_port" zero in
  let features : gmap string pyval :=
    <["dst_port" := dst_port]> (<["src_port" := src_port]> (<["protocol" := protocol]>
    (<["duration" := duration]> (<["byte_count" := byte_count]>
    (<["packet_count" := packet_count]> ∅))))) in
  let* has_duration := greater_than_zero duration in
  let* features :=
    (if has_duration : bool then
       let* pps := true_divide packet_count duration in
       let* bps := true_divide byte_count duration in
       Return (<["bytes_per_second" := bps]> (<["packets_per_second" := pps]> features))
     else
       Return (<["bytes_per_second" := zero]> (<["packets_per_second" := zero]> features))) in
  let* has_packets := greater_than_zero packet_count in
  let* features :=
    (if has_packets : bool then
       let* avg := true_divide byte_count packet_count in
       Return (<["avg_packet_size" := avg]> features)
     else Return (<["avg_packet_size" := zero]> features)) in
  let* protocol_num := protocol_lookup protocol in
  Return (<["protocol_num" := protocol_num]> features).

Definition extract_features (flow_data : pyval) : Py (gmap string pyval) :=
  try_except (lift (extraction_body flow_data))
    (fun e => print ("❌ Feature extraction error: " ++ exn_msg e)%string ;;; raise e).

(** ** Batch endpoint ([ml_service.predict_batch]) *)

Record batch_entry : Type := BatchEntry {
  entry_flow_id : pyval;
  entry_prediction : string;
  entry_confidence : number;
  entry_is_malicious : bool;
  entry_attack_type : string
}.

Inductive body : Type :=
  | ErrorBody (error : string)
  | BatchBody (predictions : list batch_entry) (total_flows : nat)
      (malicious_count : nat) (timestamp : string).

Record response : Type := Response { status : nat; payload : body }.

(** Truth value of a parsed JSON body *)
Definition truthy (v : pyval) : bool :=
  match v with
  | VNone => false
  | VBool b => b
  | VNum x => negb (num_eqb x (Fin 0))
  | VInt n => negb (Z.eqb n 0)
  | VStr s => negb (String.eqb s "")
  | VList items => match items with [] => false | _ => true end
  | VDict entries => match entries with [] => false | _ => true end
  end.

Definition is_str (s : string) (v : pyval) : bool :=
  match v with VStr t => String.eqb s t | _ => false end.

(** ['flows' in data] *)
Definition contains_flows (data : pyval) : outcome bool :=
  match data with
  | VDict entries => Return (bool_decide (is_Some (assoc_get entries "flows")))
  | VList items => Return (existsb (is_str "flows") items)
  | VStr s => Return (bool_decide (is_Some (String.index 0 "flows" s)))
  | _ => Raise (type_error "argument is not iterable")
  end.

(** [data['flows']] *)
Definition get_flows (data : pyval) : outcome pyval :=
  match data with
  | VDict entries =>
      match assoc_get entries "flows" with
      | Some v => Return v
      | None => Raise (Exn OtherError "'flows'")
      end
  | _ => Raise (type_error "indices must be integers")
  end.

(** The items that [for flow in flows] visits *)
Definition iterate (flows : pyval) : outcome (list pyval) :=
  match flows with
  | VList items => Return items
  | VDict entries => Return (map (fun kv => VStr (fst kv)) entries)
  | VStr s => Return (map (fun c => VStr (String c EmptyString)) (list_ascii_of_string s))
  | _ => Raise (type_error "object is not iterable")
  end.

(** One turn of the loop: the entry appended to [predictions]. *)
Definition predict_flow (env : Env) (model : option artifact) (flow : pyval) : Py batch_entry :=
  flow_features <- extract_features flow ;;
  result <- predict_threat env flow_features model ;;
  flow_id <- lift (dict_get flow "flow_id" (VStr "unknown")) ;;
  ret {| entry_flow_id := flow_id;
         entry_prediction := prediction result;
         entry_confidence := confidence result;
         entry_is_malicious := is_malicious result;
         entry_attack_type := attack_type result |}.

Fixpoint for_each {A B} (f : A -> Py B) (l : list A) : Py (list B) :=
  match l with
  | [] => ret []
  | x :: l' => y <- f x ;; ys <- for_each f l' ;; ret (y :: ys)
  end.

(** [sum(1 for p in predictions if p['is_malicious'])] *)
Definition count_malicious (predictions : list batch_entry) : nat :=
  length (List.filter entry_is_malicious predictions).

Definition predict_batch (env : Env) (model : option artifact) (data : pyval) : Py response :=
  try_except
    (missing <- (if negb (truthy data) then ret true
                 else has <- lift (contains_flows data) ;; ret (negb has)) ;;
     if missing : bool then ret (Response 400 (ErrorBody "No flows data provided"))
     else
       flows <- lift (get_flows data) ;;
       items <- lift (iterate flows) ;;
       predictions <- for_each (predict_flow env model) items ;;
       ret (Response 200
              (BatchBody predictions (length predictions)
                 (count_malicious predictions) (now_isoformat env))))
    (fun e =>
       let error_msg := ("Batch prediction error: " ++ exn_msg e)%string in
       print ("❌ " ++ error_msg)%string ;;;
       ret (Response 500 (ErrorBody error_msg))).

(** ** Vocabulary of the statements *)

Definition array_values (X : array_like) : matrix :=
  match X with DataFrame values | ArrayLike values => values end.

(** A row passes the filter: none of its entries is infinite. *)
Definition row_finite (row : list number) : bool := negb (existsb isinf row).

Definition contains_nan (X : matrix) : Prop := Exists (Exists (fun x => isnan x = true)) X.

(** Finite once stored as binary32: a finite value below the magnitude
    [2^128 - 2^103], from which binary32 rounds to an infinity. *)
Definition finite32 (x : number) : bool :=
  match x with
  | Fin q => Qlt_bool (Qabs q) (overflow_threshold binary32)
  | _ => false
  end.

(** What the stage prints when it drops [dropped] rows. *)
Definition drop_report (dropped : nat) : list string :=
  if Nat.eqb dropped 0 then [] else [removed_warning dropped].

(** The scaling step on the rows that were kept. *)
Definition scaled (scaler : option artifact) (kept : matrix) : outcome matrix :=
  match scaler with
  | None => Return kept
  | Some s =>
      match transform s with
      | Some f => f kept
      | None => Raise (attribute_error "transform")
      end
  end.

(** Infinite once stored as binary32. *)
Definition infinite32 (x : number) : bool := isinf (float32 x).

(** The row holds an entry that is infinite once stored as binary32. *)
Definition row_infinite32 (row : list number) : bool := existsb infinite32 row.

(** [np.isfinite] *)
Definition isfinite (x : number) : bool :=
  match x with Fin _ => true | _ => false end.

(** Every entry is a binary32 value already, written in lowest terms:
    storing it changes nothing. *)
Definition float32_valued (X : matrix) : Prop :=
  Forall (Forall (fun x => float32 x = x)) X.

Definition no_infinite32 (X : matrix) : Prop :=
  Forall (Forall (fun x => infinite32 x = false)) X.

Definition all_finite32 (X : matrix) : Prop :=
  Forall (Forall (fun x => finite32 x = true)) X.

(** The folder that the loader probes. *)
Definition probed_folder (env : Env) (folder_path : string) : string :=
  abspath env (if String.eqb folder_path "" then "." else folder_path).

(** The protocol table as the specification words it. *)
Definition protocol_number (protocol : pyval) : Z :=
  match protocol with
  | VStr s =>
      if String.eqb s "TCP" then 6
      else if String.eqb s "UDP" then 17
      else if String.eqb s "ICMP" then 1
      else 0
  | _ => 0
  end%Z.

Definition hashable (v : pyval) : bool :=
  match v with VList _ | VDict _ => false | _ => true end.

(** [flow.get(key, 0)] read as a number, for a flow that is a dictionary. *)
Definition flow_number (entries : list (string * pyval)) (key : string) : option number :=
  as_number (default zero (assoc_get entries key)).

Definition flow_protocol (entries : list (string * pyval)) : pyval :=
  default (VStr "TCP") (assoc_get entries "protocol").

(** A number that float arithmetic accepts: a [float], a [bool], or an
    [int] below the magnitude [2^1024 - 2^970], from which [float] raises
    OverflowError. *)
Definition in_float_range (v : pyval) : bool :=
  match as_pynum v with
  | Some (PInt n) => Qlt_bool (Qabs (inject_Z n)) (overflow_threshold binary64)
  | Some (PFloat _) => true
  | None => false
  end.

(** [v > 0] holds. *)
Definition positive (v : pyval) : bool :=
  match as_number v with
  | Some x => num_ltb (Fin 0) x
  | None => false
  end.

(** The value of a number as a [float]. *)
Definition float_value (a : pynum) : number :=
  match a with
  | PInt n => float64 (num_of_Z n)
  | PFloat x => x
  end.

(** The [float] nearest to the quotient of two numbers: of the integers
    themselves for two [int]s, of their [float] values otherwise. *)
Definition quotient (a b : pyval) : number :=
  match as_pynum a, as_pynum b with
  | Some (PInt m), Some (PInt n) => float64 (Fin (inject_Z m / inject_Z n))
  | Some x, Some y => float64 (num_div (float_value x) (float_value y))
  | _, _ => NaN
  end.

(** [a / b if b > 0 else 0] *)
Definition guarded_ratio (a b : pyval) : pyval :=
  if positive b then VNum (quotient a b) else zero.

(** The value that [np.array(..., dtype='float32')] stores for a number. *)
Definition stored_float32 (v : pyval) : number :=
  match as_pynum v with
  | Some a => float32 (float_value a)
  | None => NaN
  end.

(** ** Sample inputs *)

(** A working directory without artifacts and without TensorFlow. *)
Definition bare_env : Env :=
  {| abspath := fun p => String.append "/srv/ids/" p;
     path_exists := fun _ => false;
     joblib_load := fun _ => Raise (Exn OtherError "No such file");
     keras := None;
     float_of_string := fun _ => None;
     now_isoformat := "2024-01-01T00:00:00" |}.

(** A folder holding both [model.h5] and [model.pkl], still without TensorFlow. *)
Definition h5_env : Env :=
  {| abspath := fun p => String.append "/srv/ids/" p;
     path_exists := fun p => String.eqb p "/srv/ids/models/keras_model.h5"
                             || String.eqb p "/srv/ids/models/model.pkl";
     joblib_load := fun _ => Return (Some (Artifact None None None));
     keras := None;
     float_of_string := fun _ => None;
     now_isoformat := "2024-01-01T00:00:00" |}.

Definition tcp_flow : pyval :=
  VDict [("flow_id", VStr "f1");
         ("packet_count", VInt 100); ("byte_count", VInt 50000);
         ("duration_seconds", VInt 10); ("protocol", VStr "TCP");
         ("source_port", VInt 443); ("destination_port", VInt 51000)].

Definition idle_flow : pyval :=
  VDict [("flow_id", VStr "f2");
         ("packet_count", VInt 0); ("byte_count", VInt 0);
         ("duration_seconds", VInt 0)].

Definition malformed_flow : pyval :=
  VDict [("flow_id", VStr "f3"); ("duration_seconds", VStr "ten")].



Definition benign_with (conf : number) : decision :=
  {| prediction := "benign"; confidence := conf; is_malicious := false;
     attack_type := "benign"; inference_time := 0 |}.

Definition safe_default : decision := benign_with one_half.

Definition flow_ok (env : Env) (model : option artifact) (flow : pyval)
    (entry : batch_entry) : Prop :=
  result (predict_flow env model flow) = Return entry.

Definition flow_fails (env : Env) (model : option artifact) (flow : pyval) : Prop :=
  exists e, result (predict_flow env model flow) = Raise e.

(** A tree ensemble: class probabilities and class indices, one row each
    per input row. *)
Definition forest_model : artifact :=
  {| predict_proba := Some (fun X =>
       Return (PyArray (NdArray [length X; 2%nat]
                 (concat (map (fun _ => [Fin (1 # 5); Fin (4 # 5)]) X)))));
     predict := Some (fun X =>
       Return (PyArray (NdArray [length X] (map (fun _ => Fin 1) X))));
     transform := None |}.

(** A network with a linear output layer: no [predict_proba], raw outputs. *)
Definition logit_model : artifact :=
  {| predict_proba := None;
     predict := Some (fun X =>
       Return (PyArray (NdArray [length X; 2%nat]
                 (concat (map (fun _ => [Fin (-3 # 2); Fin (5 # 2)]) X)))));
     transform := None |}.


(** [predict_proba] itself raises. *)
Definition failing_proba_model : artifact :=
  {| predict_proba := Some (fun _ =>
       Raise (value_error "X has 9 features, but the model is expecting 78 features as input."));
     predict := Some (fun X =>
       Return (PyArray (NdArray [length X] (map (fun _ => Fin 0) X))));
     transform := None |}.

Definition zero_row : matrix :=
  [[Fin 0; Fin 0; Fin 0; Fin 0; Fin 0; Fin 0; Fin 0; Fin 0; Fin 0]].


(** ** Class prediction for a batch of rows ([inference.predict]) *)

(** What [predict] returns: the class names when a label encoder decoded
    the indices, the indices (or whatever [model.predict] returned)
    otherwise. *)
Inductive predicted : Type :=
  | ClassNames (y_classes : list string)
  | ClassIndices (y_idx : pyobj).

Definition no_predict_method : exn :=
  Exn RuntimeError "Loaded model has no predict method".

(** The model that [predict] works with: the one passed in, or the first
    default found alongside. *)
Definition default_model (env : Env) (model : option artifact) : Py (option artifact) :=
  match model with
  | Some _ => ret model
  | None =>
      if path_exists env "random_forest_model.joblib"
      then lift (joblib_load env "random_forest_model.joblib")
      else if path_exists env "model.pkl"
      then lift (joblib_load env "model.pkl")
      else if path_exists env "model.h5" then
        match keras env with
        | Some load_model => m <- lift (load_model "model.h5") ;; ret (Some m)
        | None => ret model
        end
      else ret model
  end.

(** [np.argmax(y_pred, axis=1)] when [y_pred] is an array with more than
    one column, [y_pred] itself otherwise. *)
Definition class_indices (y_pred : pyobj) : outcome pyobj :=
  match y_pred with
  | PyArray a =>
      if Nat.ltb 1 (ndim a) && Nat.ltb 1 (nth 1 (shape a) 0%nat)
      then let* y_idx := argmax_axis1 a in Return (PyArray y_idx)
      else Return y_pred
  | _ => Return y_pred
  end.

(** [inverse_transform] is the capability of a label encoder; the parameter
    of that name reads it off a loaded object. *)
Module Inference.

Definition predict (env : Env)
    (inverse_transform : artifact -> option (pyobj -> outcome (list string)))
    (X : array_like) (model label_encoder : option artifact) : Py predicted :=
  scaler <- (if path_exists env "scaler.joblib"
             then lift (joblib_load env "scaler.joblib")
             else ret None) ;;
  model <- default_model env model ;;
  label_encoder <- (match label_encoder with
                    | None =>
                        if path_exists env "label_encoder.joblib"
                        then lift (joblib_load env "label_encoder.joblib")
                        else ret label_encoder
                    | Some _ => ret label_encoder
                    end) ;;
  X_scaled <- preprocess_input X scaler ;;
  y_pred <- (match model ≫= predict with
             | Some f => lift (f X_scaled)
             | None => raise no_predict_method
             end) ;;
  y_idx <- lift (class_indices y_pred) ;;
  match label_encoder with
  | Some encoder =>
      try_except
        (match inverse_transform encoder with
         | Some f => y_classes <- lift (f y_idx) ;; ret (ClassNames y_classes)
         | None => raise (attribute_error "inverse_transform")
         end)
        (fun _ => ret (ClassIndices y_idx))
  | None => ret (ClassIndices y_idx)
  end.

End Inference.

(** ** Single-flow endpoint ([ml_service.predict]) *)

Inductive predict_body : Type :=
  | PredictError (error : string)
  | PredictResult (result_prediction : string) (result_confidence : number)
      (result_is_malicious : bool) (result_attack_type : string)
      (result_inference_time : Z) (result_timestamp : string).

Record predict_response : Type :=
  PredictResponse { predict_status : nat; predict_payload : predict_body }.

(** The traceback that [traceback.print_exc] writes goes to the error
    stream, which is not kept. *)
Definition predict_endpoint (env : Env) (model : option artifact) (data : pyval)
    : Py predict_response :=
  try_except
    (if negb (truthy data)
     then ret (PredictResponse 400 (PredictError "No input data provided"))
     else
       flow_features <- extract_features data ;;
       result <- predict_threat env flow_features model ;;
       ret (PredictResponse 200
              (PredictResult (prediction result) (confidence result)
                 (is_malicious result) (attack_type result)
                 (inference_time result) (now_isoformat env))))
    (fun e =>
       let error_msg := ("Prediction error: " ++ exn_msg e)%string in
       print ("❌ " ++ error_msg)%string ;;;
       ret (PredictResponse 500 (PredictError error_msg))).

(** ** Further vocabulary *)

Definition h5_candidates (env : Env) (folder_path : string) : list string :=
  [path_join (probed_folder env folder_path) "model.h5";
   path_join (probed_folder env folder_path) "keras_model.h5"].

Definition skl_candidates (env : Env) (folder_path : string) : list string :=
  [path_join (probed_folder env folder_path) "model.pkl";
   path_join (probed_folder env folder_path) "random_forest_model.joblib";
   path_join (probed_folder env folder_path) "model.joblib"].

Definition scaler_path (env : Env) (folder_path : string) : string :=
  path_join (probed_folder env folder_path) "scaler.joblib".

Definition label_encoder_path (env : Env) (folder_path : string) : string :=
  path_join (probed_folder env folder_path) "label_encoder.joblib".

(** The companions and the context, once the model is loaded. *)
Definition with_companions (env : Env) (folder_path framework : string)
    (model : artifact) : Py (artifact * context) :=
  scaler <- load_optional env (scaler_path env folder_path) ;;
  label_encoder <- load_optional env (label_encoder_path env folder_path) ;;
  ret (model, Context (probed_folder env folder_path) scaler label_encoder
                (Some framework)).

(** What the context holds for a companion file: nothing when the file is
    absent, what [joblib.load] returned otherwise. *)
Definition companion (env : Env) (path : string) (loaded : option artifact) : Prop :=
  if path_exists env path then joblib_load env path = Return loaded
  else loaded = None.

(** The encoder cannot decode: it has no [inverse_transform], or the call
    raises whatever the indices. *)
Definition encoder_fails
    (inverse_transform : artifact -> option (pyobj -> outcome (list string)))
    (encoder : artifact) : Prop :=
  match inverse_transform encoder with
  | None => True
  | Some f => forall y, exists e, f y = Raise e
  end.

Definition extraction_error_line (e : exn) : string :=
  "❌ Feature extraction error: " ++ exn_msg e.

Definition feature_keys : gset string :=
  {[ "packet_count"; "byte_count"; "duration"; "protocol"; "src_port"; "dst_port";
     "packets_per_second"; "bytes_per_second"; "avg_packet_size"; "protocol_num" ]}.

(** [flow.get(key, dflt)] for a flow that is a dictionary. *)
Definition flow_field (entries : list (string * pyval)) (key : string) (dflt : pyval) : pyval :=
  default dflt (assoc_get entries key).

(** A folder with a scikit-learn model under two names and a scaler. *)
Definition forest_folder_env : Env :=
  {| abspath := fun p => String.append "/srv/ids/" p;
     path_exists := fun p => String.eqb p "/srv/ids/models/model.pkl"
                             || String.eqb p "/srv/ids/models/random_forest_model.joblib"
                             || String.eqb p "/srv/ids/models/scaler.joblib";
     joblib_load := fun p =>
       if String.eqb p "/srv/ids/models/model.pkl" then Return (Some forest_model)
       else if String.eqb p "/srv/ids/models/random_forest_model.joblib"
       then Return (Some logit_model)
       else Return (Some (Artifact None None (Some (fun X => Return X))));
     keras := None;
     float_of_string := fun _ => None;
     now_isoformat := "2024-01-01T00:00:00" |}.

(** A folder with a Keras model, a scikit-learn model and TensorFlow. *)
Definition keras_folder_env : Env :=
  {| abspath := fun p => String.append "/srv/ids/" p;
     path_exists := fun p => String.eqb p "/srv/ids/models/keras_model.h5"
                             || String.eqb p "/srv/ids/models/model.pkl";
     joblib_load := fun _ => Return (Some forest_model);
     keras := Some (fun _ => Return logit_model);
     float_of_string := fun _ => None;
     now_isoformat := "2024-01-01T00:00:00" |}.

(** A folder whose [model.pkl] holds a pickled [None], and one whose scaler
    cannot be read. *)
Definition none_pickle_env : Env :=
  {| abspath := fun p => String.append "/srv/ids/" p;
     path_exists := fun p => String.eqb p "/srv/ids/models/model.pkl";
     joblib_load := fun _ => Return None;
     keras := None;
     float_of_string := fun _ => None;
     now_isoformat := "2024-01-01T00:00:00" |}.

Definition corrupt_scaler_env : Env :=
  {| abspath := fun p => String.append "/srv/ids/" p;
     path_exists := fun p => String.eqb p "/srv/ids/models/model.pkl"
                             || String.eqb p "/srv/ids/models/scaler.joblib";
     joblib_load := fun p =>
       if String.eqb p "/srv/ids/models/model.pkl" then Return (Some forest_model)
       else Raise (Exn OtherError "invalid load key");
     keras := None;
     float_of_string := fun _ => None;
     now_isoformat := "2024-01-01T00:00:00" |}.

(** A working directory that holds both default model files. *)
Definition cwd_models_env : Env :=
  {| abspath := fun p => String.append "/srv/ids/" p;
     path_exists := fun p => String.eqb p "random_forest_model.joblib"
                             || String.eqb p "model.pkl";
     joblib_load := fun p =>
       if String.eqb p "model.pkl" then Return (Some forest_model)
       else Return (Some logit_model);
     keras := None;
     float_of_string := fun _ => None;
     now_isoformat := "2024-01-01T00:00:00" |}.

(** A network with a single sigmoid output. *)
Definition sigmoid_model : artifact :=
  {| predict_proba := None;
     predict := Some (fun X =>
       Return (PyArray (NdArray [length X; 1%nat] (map (fun _ => Fin (99 # 100)) X))));
     transform := None |}.

Definition no_inverse_transform : artifact -> option (pyobj -> outcome (list string)) :=
  fun _ => None.

(** The entries that [extract_features] copies from the flow record. *)
Definition copied_features (entries : list (string * pyval)) : gmap string pyval :=
  <["dst_port" := flow_field entries "destination_port" zero]>
  (<["src_port" := flow_field entries "source_port" zero]>
  (<["protocol" := flow_field entries "protocol" (VStr "TCP")]>
  (<["duration" := flow_field entries "duration_seconds" zero]>
  (<["byte_count" := flow_field entries "byte_count" zero]>
  (<["packet_count" := flow_field entries "packet_count" zero]> ∅))))).

(** A flow without volume: neither its duration nor its packet count is
    positive. *)
Definition not_positive (entries : list (string * pyval)) (key : string) : Prop :=
  exists x, flow_number entries key = Some x /\ num_ltb (Fin 0) x = false.

Definition odd_idle_flow : list (string * pyval) :=
  [("byte_count", VStr "n/a"); ("protocol", VStr "UDP")].

(** The entry that the batch endpoint builds for [flow]: its [flow_id]
    ("unknown" when absent) and the decision for its extracted features. *)
Definition entry_of_flow (env : Env) (model : option artifact) (flow : pyval)
    (entry : batch_entry) : Prop :=
  exists entries features d,
    flow = VDict entries
    /\ result (extract_features flow) = Return features
    /\ result (predict_threat env features model) = Return d
    /\ entry = {| entry_flow_id := flow_field entries "flow_id" (VStr "unknown");
                  entry_prediction := prediction d;
                  entry_confidence := confidence d;
                  entry_is_malicious := is_malicious d;
                  entry_attack_type := attack_type d |}.

(** The features of [tcp_flow]. *)
Definition tcp_features : gmap string pyval :=
  <["protocol_num" := VInt 6]> (<["avg_packet_size" := VNum (Fin 500)]>
  (<["bytes_per_second" := VNum (Fin 5000)]> (<["packets_per_second" := VNum (Fin 10)]>
  (<["dst_port" := VInt 51000]> (<["src_port" := VInt 443]>
  (<["protocol" := VStr "TCP"]> (<["duration" := VInt 10]>
  (<["byte_count" := VInt 50000]> (<["packet_count" := VInt 100]> ∅))))))))).


Definition answered (code : nat) : Prop := code = 200%nat \/ code = 400%nat \/ code = 500%nat.
(** * Properties *)

(** ** Rounding *)

Section Rounding.

Local Open Scope Q_scope.

Lemma pow2_pos (e : Z) : 0 < pow2 e.
Proof. apply Qpower_0_lt. reflexivity. Qed.

Lemma pow2_add (a b : Z) : pow2 (a + b) == pow2 a * pow2 b.
Proof. apply Qpower_plus. discriminate. Qed.

Lemma pow2_split (a b c : Z) : a = (b + c)%Z -> pow2 a == pow2 b * pow2 c.
Proof. intros ->. apply pow2_add. Qed.

Lemma pow2_le (a b : Z) : (a <= b)%Z -> pow2 a <= pow2 b.
Proof. intros H. apply Qpower_le_compat_l; [exact H | discriminate]. Qed.

Lemma pow2_lt (a b : Z) : (a < b)%Z -> pow2 a < pow2 b.
Proof. intros H. apply Qpower_lt_compat_l; [exact H | reflexivity]. Qed.

Lemma pow2_lt_inv (a b : Z) : pow2 a < pow2 b -> (a < b)%Z.
Proof.
  intros H. destruct (Z.lt_ge_cases a b) as [Hlt | Hge]; [exact Hlt|].
  pose proof (pow2_le b a Hge). lra.
Qed.

Lemma pow2_Z (z : Z) : (0 <= z)%Z -> pow2 z == inject_Z (2 ^ z).
Proof. intros H. unfold pow2. rewrite (Zpower_Qpower 2 z H). reflexivity. Qed.

Lemma pow2_nonzero (e : Z) : ~ pow2 e == 0.
Proof. pose proof (pow2_pos e). lra. Qed.

Lemma mul_div_pow2 (x : Q) (e : Z) : x * pow2 e / pow2 e == x.
Proof. field. apply pow2_nonzero. Qed.

Lemma Qabs_div_pow2 (q : Q) (e : Z) : Qabs (q / pow2 e) == Qabs q / pow2 e.
Proof.
  unfold Qdiv. rewrite Qabs_Qmult, Qabs_Qinv.
  rewrite (Qabs_pos (pow2 e)) by apply Qlt_le_weak, pow2_pos. reflexivity.
Qed.

(** *** The nearest integer *)

Lemma rne_cases (x : Q) :
  inject_Z (Qfloor x) <= x /\ x < inject_Z (Qfloor x) + 1
  /\ ((x - inject_Z (Qfloor x) < 1 # 2 /\ rne x = Qfloor x)
      \/ (x - inject_Z (Qfloor x) == 1 # 2
          /\ rne x = if Z.even (Qfloor x) then Qfloor x else (Qfloor x + 1)%Z)
      \/ ((1 # 2) < x - inject_Z (Qfloor x) /\ rne x = (Qfloor x + 1)%Z)).
Proof.
  split; [apply Qfloor_le|]. split.
  - pose proof (Qlt_floor x) as H. rewrite inject_Z_plus in H. exact H.
  - unfold rne.
    destruct (Qcompare_spec (x - inject_Z (Qfloor x)) (1 # 2)) as [H|H|H]; auto.
Qed.

Lemma rne_comp (x y : Q) : x == y -> rne x = rne y.
Proof.
  intros H. unfold rne. rewrite (Qfloor_comp x y H).
  assert (Hc : (x - inject_Z (Qfloor y) ?= 1 # 2) = (y - inject_Z (Qfloor y) ?= 1 # 2)).
  { apply Qcompare_comp; [rewrite H; reflexivity | reflexivity]. }
  rewrite Hc. reflexivity.
Qed.

Lemma rne_Z (z : Z) : rne (inject_Z z) = z.
Proof.
  destruct (rne_cases (inject_Z z)) as (_ & _ & H). rewrite Qfloor_Z in H.
  destruct H as [[_ H] | [[H _] | [H _]]]; [exact H | lra | lra].
Qed.

Lemma Z_lt_of_Q (a b : Z) : inject_Z a < inject_Z b -> (a < b)%Z.
Proof. intros H. rewrite Zlt_Qlt. exact H. Qed.

Lemma rne_ge (x : Q) (a : Z) : inject_Z a <= x -> (a <= rne x)%Z.
Proof.
  intros H. destruct (rne_cases x) as (Hlo & Hhi & Hc).
  assert (Hf : (a < Qfloor x + 1)%Z).
  { apply Z_lt_of_Q. rewrite inject_Z_plus. change (inject_Z 1) with 1. lra. }
  destruct Hc as [[_ ->] | [[_ ->] | [_ ->]]]; [| destruct (Z.even _) |]; lia.
Qed.

Lemma rne_le (x : Q) (b : Z) : x <= inject_Z b -> (rne x <= b)%Z.
Proof.
  intros H. destruct (rne_cases x) as (Hlo & Hhi & Hc).
  destruct Hc as [[Hc ->] | [[Hc ->] | [Hc ->]]].
  - rewrite Zle_Qle. lra.
  - assert (Hf : (Qfloor x < b)%Z) by (apply Z_lt_of_Q; lra).
    destruct (Z.even _); lia.
  - assert (Hf : (Qfloor x < b)%Z) by (apply Z_lt_of_Q; lra). lia.
Qed.

Lemma rne_lt_half (x : Q) (n : Z) : x < inject_Z n - (1 # 2) -> (rne x <= n - 1)%Z.
Proof.
  intros H. destruct (rne_cases x) as (Hlo & Hhi & Hc).
  destruct Hc as [[Hc ->] | [[Hc ->] | [Hc ->]]].
  - assert (Hf : (Qfloor x < n)%Z) by (apply Z_lt_of_Q; lra). lia.
  - assert (Hf : (Qfloor x + 1 < n)%Z).
    { apply Z_lt_of_Q. rewrite inject_Z_plus. change (inject_Z 1) with 1. lra. }
    destruct (Z.even _); lia.
  - assert (Hf : (Qfloor x + 1 < n)%Z).
    { apply Z_lt_of_Q. rewrite inject_Z_plus. change (inject_Z 1) with 1. lra. }
    lia.
Qed.

Lemma rne_gt_half (x : Q) (n : Z) : inject_Z n + (1 # 2) < x -> (n + 1 <= rne x)%Z.
Proof.
  intros H. destruct (rne_cases x) as (Hlo & Hhi & Hc).
  destruct Hc as [[Hc ->] | [[Hc ->] | [Hc ->]]].
  - assert (Hf : (n < Qfloor x)%Z) by (apply Z_lt_of_Q; lra). lia.
  - assert (Hf : (n < Qfloor x)%Z) by (apply Z_lt_of_Q; lra).
    destruct (Z.even _); lia.
  - assert (Hf : (n < Qfloor x + 1)%Z).
    { apply Z_lt_of_Q. rewrite inject_Z_plus. change (inject_Z 1) with 1. lra. }
    lia.
Qed.

Lemma even_not_succ (a b : Z) : Z.even a = true -> Z.even b = true -> a <> (b + 1)%Z.
Proof.
  intros Ha Hb E. apply Z.even_spec in Ha as [i Hi]. apply Z.even_spec in Hb as [j Hj]. lia.
Qed.

Lemma rne_ge_half_even (x : Q) (n : Z) :
  inject_Z n - (1 # 2) <= x -> Z.even n = true -> (n <= rne x)%Z.
Proof.
  intros H Hn. destruct (rne_cases x) as (Hlo & Hhi & Hc).
  assert (Hf : (n < Qfloor x + 2)%Z).
  { apply Z_lt_of_Q. rewrite inject_Z_plus. change (inject_Z 2) with 2. lra. }
  destruct Hc as [[Hc ->] | [[Hc ->] | [Hc ->]]].
  - assert (Hf' : (n < Qfloor x + 1)%Z).
    { apply Z_lt_of_Q. rewrite inject_Z_plus. change (inject_Z 1) with 1. lra. }
    lia.
  - destruct (Z.even (Qfloor x)) eqn:Ef; [|lia].
    pose proof (even_not_succ n (Qfloor x) Hn Ef). lia.
  - lia.
Qed.

Lemma rne_le_half_even (x : Q) (n : Z) :
  x <= inject_Z n + (1 # 2) -> Z.even n = true -> (rne x <= n)%Z.
Proof.
  intros H Hn. destruct (rne_cases x) as (Hlo & Hhi & Hc).
  assert (Hf : (Qfloor x < n + 1)%Z).
  { apply Z_lt_of_Q. rewrite inject_Z_plus. change (inject_Z 1) with 1. lra. }
  destruct Hc as [[Hc ->] | [[Hc ->] | [Hc ->]]].
  - lia.
  - destruct (Z.even (Qfloor x)) eqn:Ef; [lia|].
    assert (Hne : Qfloor x <> n) by (intros E; rewrite E in Ef; congruence). lia.
  - assert (Hf' : (Qfloor x < n)%Z) by (apply Z_lt_of_Q; lra). lia.
Qed.

Lemma Qabs_bounds (x : Q) : x <= Qabs x /\ - x <= Qabs x.
Proof.
  split; [apply Qle_Qabs|]. rewrite <- Qabs_opp. apply Qle_Qabs.
Qed.

Lemma Qabs_cases (x : Q) : Qabs x == x \/ Qabs x == - x.
Proof.
  destruct (Qlt_le_dec x 0) as [H|H].
  - right. apply Qabs_neg. lra.
  - left. apply Qabs_pos. exact H.
Qed.

Lemma rne_abs_le (x : Q) (b : Z) : Qabs x <= inject_Z b -> (Z.abs (rne x) <= b)%Z.
Proof.
  intros H. destruct (Qabs_bounds x) as [H1 H2]. apply Z.abs_le. split.
  - apply rne_ge. rewrite inject_Z_opp. lra.
  - apply rne_le. lra.
Qed.

Lemma rne_abs_ge (x : Q) (b : Z) : inject_Z b <= Qabs x -> (b <= Z.abs (rne x))%Z.
Proof.
  intros H. destruct (Qabs_cases x) as [E|E]; rewrite E in H.
  - pose proof (rne_ge x b H). lia.
  - assert (H' : x <= inject_Z (- b)) by (rewrite inject_Z_opp; lra).
    pose proof (rne_le x (- b) H'). lia.
Qed.

Lemma rne_abs_lt_half (x : Q) (n : Z) :
  Qabs x < inject_Z n - (1 # 2) -> (Z.abs (rne x) <= n - 1)%Z.
Proof.
  intros H. destruct (Qabs_bounds x) as [H1 H2]. apply Z.abs_le. split.
  - assert (H' : inject_Z (- n) + (1 # 2) < x) by (rewrite inject_Z_opp; lra).
    pose proof (rne_gt_half x (- n) H'). lia.
  - apply rne_lt_half. lra.
Qed.

Lemma rne_abs_ge_half (x : Q) (n : Z) :
  inject_Z n - (1 # 2) <= Qabs x -> Z.even n = true -> (n <= Z.abs (rne x))%Z.
Proof.
  intros H Hn. destruct (Qabs_cases x) as [E|E]; rewrite E in H.
  - pose proof (rne_ge_half_even x n H Hn). lia.
  - assert (H' : x <= inject_Z (- n) + (1 # 2)) by (rewrite inject_Z_opp; lra).
    assert (Hn' : Z.even (- n) = true) by (rewrite Z.even_opp; exact Hn).
    pose proof (rne_le_half_even x (- n) H' Hn'). lia.
Qed.

(** *** The exponent *)

Lemma floor_log2_spec (a : Q) :
  0 < a -> pow2 (floor_log2 a) <= a /\ a < pow2 (floor_log2 a + 1).
Proof.
  intros Ha. destruct a as [n d].
  assert (Hn : (0 < n)%Z).
  { unfold Qlt in Ha. simpl in Ha. lia. }
  unfold floor_log2. cbn [Qnum Qden].
  set (ln := Z.log2 n). set (ld := Z.log2 (Zpos d)).
  destruct (Z.log2_spec n Hn) as [Hn1 Hn2]. fold ln in Hn1, Hn2.
  destruct (Z.log2_spec (Zpos d) eq_refl) as [Hd1 Hd2]. fold ld in Hd1, Hd2.
  assert (Hln : (0 <= ln)%Z) by apply Z.log2_nonneg.
  assert (Hld : (0 <= ld)%Z) by apply Z.log2_nonneg.
  assert (Hdpos : 0 < inject_Z (Zpos d)) by reflexivity.
  assert (Ha' : n # d == inject_Z n / inject_Z (Zpos d)) by apply Qmake_Qdiv.
  assert (Hup : n # d < pow2 (ln - ld + 1)).
  { rewrite Ha'. apply Qlt_shift_div_r; [exact Hdpos|].
    apply Qlt_le_trans with (inject_Z (2 ^ (ln + 1))).
    - rewrite <- Zlt_Qlt. lia.
    - rewrite <- (pow2_Z (ln + 1)) by lia.
      replace (ln + 1)%Z with ((ln - ld + 1) + ld)%Z at 1 by lia.
      rewrite pow2_add. apply Qmult_le_l; [apply pow2_pos|].
      rewrite (pow2_Z ld Hld). rewrite <- Zle_Qle. exact Hd1. }
  assert (Hlow : pow2 (ln - ld - 1) <= n # d).
  { rewrite Ha'. apply Qle_shift_div_l; [exact Hdpos|].
    apply Qle_trans with (inject_Z (2 ^ ln)).
    - rewrite <- (pow2_Z ln Hln).
      replace ln with ((ln - ld - 1) + (ld + 1))%Z at 2 by lia.
      rewrite pow2_add. apply Qmult_le_l; [apply pow2_pos|].
      rewrite (pow2_Z (ld + 1)) by lia. rewrite <- Zle_Qle. lia.
    - rewrite <- Zle_Qle. exact Hn1. }
  destruct (Qle_bool (pow2 (ln - ld)) (n # d)) eqn:E.
  - apply Qle_bool_iff in E. split; assumption.
  - split; [exact Hlow|].
    replace (ln - ld - 1 + 1)%Z with (ln - ld)%Z by lia.
    apply Qnot_le_lt. intros H. apply Qle_bool_iff in H. congruence.
Qed.

Lemma floor_log2_unique (a : Q) (k : Z) :
  pow2 k <= a -> a < pow2 (k + 1) -> floor_log2 a = k.
Proof.
  intros H1 H2.
  assert (Ha : 0 < a) by (eapply Qlt_le_trans; [apply pow2_pos | exact H1]).
  destruct (floor_log2_spec a Ha) as [F1 F2].
  set (f := floor_log2 a) in *.
  destruct (Z.lt_trichotomy f k) as [Hlt | [Heq | Hgt]]; [exfalso | exact Heq | exfalso].
  - assert (H : pow2 (f + 1) <= pow2 k) by (apply pow2_le; lia).
    lra.
  - assert (H : pow2 (k + 1) <= pow2 f) by (apply pow2_le; lia).
    lra.
Qed.

Lemma Qabs_nonzero (q : Q) : ~ q == 0 -> 0 < Qabs q.
Proof.
  intros Hq. destruct (Qabs_cases q) as [E|E]; rewrite E;
    destruct (Qlt_le_dec 0 q) as [H|H];
    destruct (Qlt_le_dec q 0) as [H'|H']; try lra;
    pose proof (Qabs_nonneg q); try lra; exfalso; apply Hq; lra.
Qed.

Lemma Qeq_bool_false (x y : Q) : ~ x == y -> Qeq_bool x y = false.
Proof.
  intros H. destruct (Qeq_bool x y) eqn:E; [|reflexivity].
  apply Qeq_bool_iff in E. contradiction.
Qed.

(** *** Rounding to [p] bits *)

Lemma round_binary_zero (p emin : Z) (q : Q) :
  Qeq_bool q 0 = true -> round_binary p emin q = 0.
Proof. intros H. unfold round_binary. rewrite H. reflexivity. Qed.

Lemma round_binary_nonzero (p emin : Z) (q : Q) :
  Qeq_bool q 0 = false ->
  round_binary p emin q =
  Qred (inject_Z (rne (q / pow2 (Z.max emin (floor_log2 (Qabs q) - (p - 1)))))
        * pow2 (Z.max emin (floor_log2 (Qabs q) - (p - 1)))).
Proof. intros H. unfold round_binary. rewrite H. reflexivity. Qed.

(** A value that sits on the grid of exponent [e] is left where it is. *)
Lemma round_on_grid (x : Q) (n e : Z) :
  x == inject_Z n * pow2 e ->
  Qred (inject_Z (rne (x / pow2 e)) * pow2 e) = Qred x.
Proof.
  intros H. apply Qred_complete.
  assert (Hx : x / pow2 e == inject_Z n).
  { rewrite H. apply mul_div_pow2. }
  rewrite (rne_comp _ _ Hx), rne_Z. symmetry. exact H.
Qed.

Lemma round_fixed (p emin m e : Z) (x : Q) :
  (1 <= p)%Z -> (emin <= e)%Z -> m <> 0%Z -> (Z.abs m <= 2 ^ p)%Z ->
  x == inject_Z m * pow2 e ->
  round_binary p emin x = Qred x.
Proof.
  intros Hp He Hm Hb Hx.
  pose proof (pow2_pos e) as Hpe.
  assert (Hnz : ~ x == 0).
  { rewrite Hx. intros E. apply Qmult_integral in E as [E|E].
    - apply Hm. revert E. unfold Qeq. simpl. lia.
    - lra. }
  rewrite round_binary_nonzero by (apply Qeq_bool_false; exact Hnz).
  set (j := Z.log2 (Z.abs m)).
  assert (Hmpos : (0 < Z.abs m)%Z) by lia.
  destruct (Z.log2_spec (Z.abs m) Hmpos) as [Hj1 Hj2]. fold j in Hj1, Hj2.
  assert (Hj0 : (0 <= j)%Z) by apply Z.log2_nonneg.
  assert (Hjp : (j <= p)%Z).
  { apply (Z.pow_le_mono_r_iff 2); lia. }
  assert (Habs : Qabs x == inject_Z (Z.abs m) * pow2 e).
  { rewrite Hx, Qabs_Qmult. rewrite (Qabs_pos (pow2 e)) by (apply Qlt_le_weak, Hpe).
    reflexivity. }
  assert (Hlog : floor_log2 (Qabs x) = (j + e)%Z).
  { apply floor_log2_unique; rewrite Habs.
    - rewrite pow2_add, (pow2_Z j Hj0). apply Qmult_le_compat_r;
        [rewrite <- Zle_Qle; exact Hj1 | apply Qlt_le_weak, Hpe].
    - replace (j + e + 1)%Z with ((j + 1) + e)%Z by lia.
      rewrite pow2_add, (pow2_Z (j + 1)) by lia.
      apply Qmult_lt_compat_r; [exact Hpe | rewrite <- Zlt_Qlt; exact Hj2]. }
  rewrite Hlog.
  set (e' := Z.max emin (j + e - (p - 1))).
  destruct (Z.le_gt_cases e' e) as [Hle | Hgt].
  - assert (Hee : (0 <= e - e')%Z) by lia.
    apply (round_on_grid x (m * 2 ^ (e - e')) e').
    rewrite Hx, inject_Z_mult, <- (pow2_Z (e - e') Hee).
    rewrite <- Qmult_assoc, <- pow2_add.
    replace (e - e' + e')%Z with e by lia. reflexivity.
  - assert (Hjp' : j = p).
    { clearbody j. unfold e' in Hgt. clear - Hjp Hgt He. lia. }
    assert (He' : e' = (e + 1)%Z).
    { clearbody j. unfold e'. clear - Hjp' He Hp. lia. }
    assert (Habsm : Z.abs m = (2 ^ p)%Z).
    { rewrite Hjp' in Hj1. clear - Hj1 Hb. lia. }
    assert (Hhalf : m = (2 * (m / 2))%Z).
    { assert (H2p : (2 ^ p = 2 * 2 ^ (p - 1))%Z).
      { replace p with (1 + (p - 1))%Z at 1 by lia. rewrite Z.pow_add_r by lia.
        reflexivity. }
      destruct (Z.abs_eq_or_opp m) as [E|E]; rewrite E in Habsm.
      - assert (H : m = (2 ^ (p - 1) * 2)%Z) by lia.
        rewrite H at 2. rewrite Z.div_mul by lia. lia.
      - assert (H : m = (- 2 ^ (p - 1) * 2)%Z) by lia.
        rewrite H at 2. rewrite Z.div_mul by lia. lia. }
    apply (round_on_grid x (m / 2) e').
    rewrite Hx, He', pow2_add. rewrite Hhalf at 1. rewrite inject_Z_mult.
    change (pow2 1) with 2%Q. change (inject_Z 2) with 2%Q. ring.
Qed.

(** The rounded value is [m * 2^e] for the integer [m] and the exponent
    [e] that the definition computes. *)
Lemma round_binary_value (p emin : Z) (q : Q) :
  ~ q == 0 ->
  let e := Z.max emin (floor_log2 (Qabs q) - (p - 1)) in
  let m := rne (q / pow2 e) in
  round_binary p emin q == inject_Z m * pow2 e
  /\ Qabs (round_binary p emin q) == inject_Z (Z.abs m) * pow2 e.
Proof.
  intros Hq e m.
  rewrite round_binary_nonzero by (apply Qeq_bool_false; exact Hq).
  fold e. fold m. rewrite Qred_correct. split; [reflexivity|].
  rewrite Qabs_Qmult, (Qabs_pos (pow2 e)) by apply Qlt_le_weak, pow2_pos.
  reflexivity.
Qed.

(** The integer of a rounded value lies between the powers of two that
    enclose the scaled magnitude. *)
Lemma rounded_integer_bounds (p emin : Z) (q : Q) :
  ~ q == 0 ->
  let k := floor_log2 (Qabs q) in
  let e := Z.max emin (k - (p - 1)) in
  let m := rne (q / pow2 e) in
  (Z.abs m <= 2 ^ Z.max 0 (k + 1 - e))%Z
  /\ ((e <= k)%Z -> (2 ^ (k - e) <= Z.abs m)%Z).
Proof.
  intros Hq k e m.
  destruct (floor_log2_spec (Qabs q) (Qabs_nonzero q Hq)) as [Hlo Hhi]. fold k in Hlo, Hhi.
  pose proof (pow2_pos e) as Hpe.
  split.
  - apply rne_abs_le. rewrite Qabs_div_pow2.
    apply Qle_shift_div_r; [exact Hpe|].
    rewrite <- pow2_Z by lia. rewrite <- pow2_add.
    apply Qlt_le_weak. eapply Qlt_le_trans; [exact Hhi|]. apply pow2_le. lia.
  - intros Hek. apply rne_abs_ge. rewrite Qabs_div_pow2.
    apply Qle_shift_div_l; [exact Hpe|].
    rewrite <- pow2_Z by lia. rewrite <- pow2_add.
    replace (k - e + e)%Z with k by lia. exact Hlo.
Qed.

Lemma round_binary_idempotent (p emin : Z) (q : Q) :
  (1 <= p)%Z ->
  round_binary p emin (round_binary p emin q) = round_binary p emin q.
Proof.
  intros Hp. destruct (Qeq_bool q 0) eqn:E0.
  - rewrite (round_binary_zero p emin q E0). reflexivity.
  - rewrite (round_binary_nonzero p emin q E0).
    apply Qeq_bool_neq in E0.
    destruct (rounded_integer_bounds p emin q E0) as [Hub _].
    set (e := Z.max emin (floor_log2 (Qabs q) - (p - 1))) in *.
    set (m := rne (q / pow2 e)) in *.
    destruct (Z.eq_dec m 0%Z) as [Hm | Hm].
    + rewrite Hm. replace (Qred (inject_Z 0 * pow2 e)) with 0%Q; [reflexivity|].
      change 0%Q with (Qred 0) at 1. apply Qred_complete. ring.
    + rewrite (round_fixed p emin m e); [| exact Hp | unfold e; lia | exact Hm | |].
      * apply Qred_complete, Qred_correct.
      * etransitivity; [exact Hub|]. apply Z.pow_le_mono_r; [lia|]. unfold e. lia.
      * apply Qred_correct.
Qed.

(** A positive value of at least the least exponent does not round below
    its leading power of two. *)
Lemma round_binary_lower (p emin : Z) (q : Q) :
  (1 <= p)%Z -> 0 < q -> (emin <= floor_log2 q)%Z ->
  pow2 (floor_log2 q) <= round_binary p emin q.
Proof.
  intros Hp Hq Hk.
  assert (Hnz : ~ q == 0) by lra.
  assert (Habs : Qabs q == q) by (apply Qabs_pos; lra).
  rewrite round_binary_nonzero by (apply Qeq_bool_false; exact Hnz).
  rewrite Qred_correct.
  assert (Hfl : floor_log2 (Qabs q) = floor_log2 q).
  { destruct (floor_log2_spec q Hq) as [H1 H2].
    apply floor_log2_unique; rewrite Habs; assumption. }
  rewrite Hfl. set (k := floor_log2 q) in *.
  set (e := Z.max emin (k - (p - 1))).
  assert (Hek : (e <= k)%Z) by (unfold e; lia).
  destruct (floor_log2_spec q Hq) as [Hlo _]. fold k in Hlo.
  pose proof (pow2_pos e) as Hpe.
  assert (Hm : (2 ^ (k - e) <= rne (q / pow2 e))%Z).
  { apply rne_ge. apply Qle_shift_div_l; [exact Hpe|].
    rewrite <- pow2_Z by lia. rewrite <- pow2_add.
    replace (k - e + e)%Z with k by lia. exact Hlo. }
  replace k with ((k - e) + e)%Z at 1 by lia.
  rewrite pow2_add, (pow2_Z (k - e)) by lia.
  apply Qmult_le_compat_r; [rewrite <- Zle_Qle; exact Hm | lra].
Qed.

(** *** Overflow *)

Lemma threshold_scaled (p hi : Z) :
  (1 <= p)%Z ->
  inject_Z (2 ^ (p + 1) - 1) * pow2 (hi - p - 1)
  == (inject_Z (2 ^ p) - (1 # 2)) * pow2 (hi - p).
Proof.
  intros Hp.
  assert (Epow : pow2 (hi - p) == 2 * pow2 (hi - p - 1)).
  { replace (hi - p)%Z with (1 + (hi - p - 1))%Z at 1 by lia.
    rewrite pow2_add. reflexivity. }
  assert (E : inject_Z (2 ^ (p + 1) - 1) == 2 * inject_Z (2 ^ p) - 1).
  { rewrite Z.pow_add_r by lia. change (2 ^ 1)%Z with 2%Z.
    rewrite <- Z.add_opp_r, inject_Z_plus, inject_Z_mult.
    change (inject_Z 2) with 2. change (inject_Z (- (1))) with (- (1)). ring. }
  rewrite E, Epow. ring.
Qed.

Lemma round_to_in_range (f : format) (q : Q) :
  (1 <= prec f)%Z -> (emin f <= emax f - prec f)%Z ->
  Qabs q < overflow_threshold f ->
  round_to f q = Some (round_binary (prec f) (emin f) q).
Proof.
  destruct f as [p lo hi]. unfold overflow_threshold, round_to. cbn [prec emin emax].
  intros Hp Hlo Hq.
  assert (Hlt : Qabs (round_binary p lo q) < pow2 hi); cycle 1.
  { destruct (Qle_bool (pow2 hi) (Qabs (round_binary p lo q))) eqn:E; [|reflexivity].
    apply Qle_bool_iff in E. lra. }
  destruct (Qeq_bool q 0) eqn:E0.
  { rewrite (round_binary_zero p lo q E0). apply pow2_pos. }
  apply Qeq_bool_neq in E0.
  destruct (round_binary_value p lo q E0) as [_ ->].
  destruct (rounded_integer_bounds p lo q E0) as [Hub _].
  destruct (floor_log2_spec (Qabs q) (Qabs_nonzero q E0)) as [Hk1 Hk2].
  set (k := floor_log2 (Qabs q)) in *.
  set (e := Z.max lo (k - (p - 1))) in *.
  set (m := rne (q / pow2 e)) in *.
  pose proof (pow2_pos e) as Hpe.
  assert (Hthr : inject_Z (2 ^ (p + 1) - 1) * pow2 (hi - p - 1) < pow2 hi).
  { replace hi with ((p + 1) + (hi - p - 1))%Z at 2 by lia.
    rewrite pow2_add. apply Qmult_lt_compat_r; [apply pow2_pos|].
    rewrite pow2_Z by lia. rewrite <- Zlt_Qlt. lia. }
  assert (Hk : (k < hi)%Z) by (apply pow2_lt_inv; lra).
  destruct (Z.eq_dec k (hi - 1)%Z) as [Hkhi | Hkhi].
  - assert (He : e = (hi - p)%Z) by (unfold e; lia).
    assert (Hm : (Z.abs m <= 2 ^ p - 1)%Z).
    { apply rne_abs_lt_half. rewrite Qabs_div_pow2.
      apply Qlt_shift_div_r; [exact Hpe|].
      eapply Qlt_le_trans; [exact Hq|]. apply Qle_lteq. right.
      rewrite He. apply threshold_scaled. exact Hp. }
    apply Qle_lt_trans with (inject_Z (2 ^ p - 1) * pow2 e).
    + apply Qmult_le_compat_r; [rewrite <- Zle_Qle; exact Hm | lra].
    + rewrite (pow2_split hi p e) by lia.
      apply Qmult_lt_compat_r; [exact Hpe|].
      rewrite pow2_Z by lia. rewrite <- Zlt_Qlt. lia.
  - apply Qle_lt_trans with (inject_Z (2 ^ Z.max 0 (k + 1 - e)) * pow2 e).
    + apply Qmult_le_compat_r; [rewrite <- Zle_Qle; exact Hub | lra].
    + rewrite <- pow2_Z by lia. rewrite <- pow2_add. apply pow2_lt. unfold e. lia.
Qed.

Lemma round_to_out_of_range (f : format) (q : Q) :
  (1 <= prec f)%Z -> (emin f <= emax f - prec f)%Z ->
  overflow_threshold f <= Qabs q ->
  round_to f q = None.
Proof.
  destruct f as [p lo hi]. unfold overflow_threshold, round_to. cbn [prec emin emax].
  intros Hp Hlo Hq.
  assert (Hle : pow2 hi <= Qabs (round_binary p lo q)); cycle 1.
  { apply Qle_bool_iff in Hle. rewrite Hle. reflexivity. }
  assert (Hthr : pow2 (hi - 1) <= inject_Z (2 ^ (p + 1) - 1) * pow2 (hi - p - 1)).
  { replace (hi - 1)%Z with (p + (hi - p - 1))%Z by lia.
    rewrite pow2_add. apply Qmult_le_compat_r; [|apply Qlt_le_weak, pow2_pos].
    rewrite pow2_Z by lia. rewrite <- Zle_Qle.
    rewrite Z.pow_add_r by lia. change (2 ^ 1)%Z with 2%Z.
    assert (0 < 2 ^ p)%Z by (apply Z.pow_pos_nonneg; lia). lia. }
  assert (E0 : ~ q == 0).
  { intros E. rewrite E in Hq. change (Qabs 0) with 0 in Hq.
    pose proof (pow2_pos (hi - 1)). lra. }
  destruct (round_binary_value p lo q E0) as [_ ->].
  destruct (rounded_integer_bounds p lo q E0) as [_ Hlb].
  destruct (floor_log2_spec (Qabs q) (Qabs_nonzero q E0)) as [Hk1 Hk2].
  set (k := floor_log2 (Qabs q)) in *.
  set (e := Z.max lo (k - (p - 1))) in *.
  set (m := rne (q / pow2 e)) in *.
  pose proof (pow2_pos e) as Hpe.
  assert (Hk : (hi - 1 < k + 1)%Z) by (apply pow2_lt_inv; lra).
  destruct (Z.eq_dec k (hi - 1)%Z) as [Hkhi | Hkhi].
  - assert (He : e = (hi - p)%Z) by (unfold e; lia).
    assert (Hm : (2 ^ p <= Z.abs m)%Z).
    { apply rne_abs_ge_half.
      - rewrite Qabs_div_pow2. apply Qle_shift_div_l; [exact Hpe|].
        eapply Qle_trans; [|exact Hq]. apply Qle_lteq. right.
        rewrite He. symmetry. apply threshold_scaled. exact Hp.
      - replace p with (1 + (p - 1))%Z by lia. rewrite Z.pow_add_r by lia.
        change (2 ^ 1)%Z with 2%Z. apply Z.even_mul. }
    apply Qle_trans with (inject_Z (2 ^ p) * pow2 e).
    + rewrite <- pow2_Z by lia. rewrite <- pow2_add. apply pow2_le. lia.
    + apply Qmult_le_compat_r; [rewrite <- Zle_Qle; exact Hm | lra].
  - assert (Hek : (e <= k)%Z) by (unfold e; lia).
    apply Qle_trans with (inject_Z (2 ^ (k - e)) * pow2 e).
    + rewrite <- pow2_Z by lia. rewrite <- pow2_add. apply pow2_le. lia.
    + apply Qmult_le_compat_r; [rewrite <- Zle_Qle; exact (Hlb Hek) | lra].
Qed.

Lemma round_to_idempotent (f : format) (q r : Q) :
  (1 <= prec f)%Z -> round_to f q = Some r -> round_to f r = Some r.
Proof.
  unfold round_to. intros Hp.
  destruct (Qle_bool _ (Qabs (round_binary (prec f) (emin f) q))) eqn:E; [discriminate|].
  intros [= <-]. rewrite (round_binary_idempotent _ _ q Hp), E. reflexivity.
Qed.

End Rounding.

(** ** The preprocessor *)

Lemma boolean_index_filter (X : matrix) :
  boolean_index X (map negb (isinf_any_axis1 X)) = List.filter row_finite X.
Proof.
  induction X as [|row X IH]; simpl; [reflexivity|].
  unfold row_finite at 1. destruct (existsb isinf row); simpl; rewrite IH; reflexivity.
Qed.

Lemma count_true_infinite (X : matrix) :
  count_true (map negb (map negb (isinf_any_axis1 X)))
  = length (List.filter (existsb isinf) X).
Proof.
  unfold count_true.
  induction X as [|row X IH]; simpl; [reflexivity|].
  destruct (existsb isinf row); simpl; congruence.
Qed.

Lemma mask_all_true (X : matrix) :
  forallb id (map negb (isinf_any_axis1 X))
  = Nat.eqb (length (List.filter (existsb isinf) X)) 0.
Proof.
  induction X as [|row X IH]; simpl; [reflexivity|].
  destruct (existsb isinf row); simpl; [reflexivity | exact IH].
Qed.

Lemma filter_nothing_dropped (X : matrix) :
  length (List.filter (existsb isinf) X) = 0%nat -> List.filter row_finite X = X.
Proof.
  induction X as [|row X IH]; simpl; [reflexivity|].
  unfold row_finite at 1.
  destruct (existsb isinf row); simpl; [discriminate|].
  intros H. rewrite IH by exact H. reflexivity.
Qed.

Lemma filter_partition_length (X : matrix) :
  (length (List.filter row_finite X) + length (List.filter (existsb isinf) X)
   = length X)%nat.
Proof.
  induction X as [|row X IH]; simpl; [reflexivity|].
  unfold row_finite at 1. destruct (existsb isinf row); simpl; lia.
Qed.

(** The stage in one equation: mask, report and scaling. *)
Lemma preprocess_input_unfold (X : array_like) (scaler : option artifact) :
  let X32 := astype_float32 (array_values X) in
  preprocess_input X scaler
  = MkPy (drop_report (length (List.filter (existsb isinf) X32)))
         (scaled scaler (List.filter row_finite X32)).
Proof.
  destruct X as [V|V]; simpl; unfold preprocess_input, drop_report;
    rewrite mask_all_true, count_true_infinite, boolean_index_filter;
    (destruct (Nat.eqb (length (List.filter (existsb isinf) (astype_float32 V))) 0)
       eqn:Hz; simpl;
     [ apply Nat.eqb_eq in Hz; rewrite (filter_nothing_dropped _ Hz) | ]);
    destruct scaler as [s|]; simpl; try reflexivity;
    unfold call_transform, bind; destruct (transform s); reflexivity.
Qed.

Lemma Qlt_bool_iff (a b : Q) : Qlt_bool a b = true <-> (a < b)%Q.
Proof.
  unfold Qlt_bool. rewrite negb_true_iff. split.
  - intros H. apply Qnot_le_lt. intros Hle. apply Qle_bool_iff in Hle. congruence.
  - intros H. destruct (Qle_bool b a) eqn:E; [|reflexivity].
    apply Qle_bool_iff in E. exfalso. revert H. apply Qle_not_lt, E.
Qed.

Lemma Qlt_bool_false (a b : Q) : Qlt_bool a b = false <-> (b <= a)%Q.
Proof.
  unfold Qlt_bool. rewrite negb_false_iff. apply Qle_bool_iff.
Qed.

Lemma binary32_valid :
  (1 <= prec binary32)%Z /\ (emin binary32 <= emax binary32 - prec binary32)%Z.
Proof. cbn. lia. Qed.

Lemma binary64_valid :
  (1 <= prec binary64)%Z /\ (emin binary64 <= emax binary64 - prec binary64)%Z.
Proof. cbn. lia. Qed.

Lemma store_in_range (f : format) (q : Q) :
  (1 <= prec f)%Z -> (emin f <= emax f - prec f)%Z ->
  (Qabs q < overflow_threshold f)%Q ->
  store f (Fin q) = Fin (round_binary (prec f) (emin f) q).
Proof.
  intros Hp Hlo Hq. unfold store. rewrite (round_to_in_range f q Hp Hlo Hq). reflexivity.
Qed.

Lemma store_out_of_range (f : format) (q : Q) :
  (1 <= prec f)%Z -> (emin f <= emax f - prec f)%Z ->
  (overflow_threshold f <= Qabs q)%Q ->
  isinf (store f (Fin q)) = true.
Proof.
  intros Hp Hlo Hq. unfold store. rewrite (round_to_out_of_range f q Hp Hlo Hq).
  destruct (Qlt_bool 0 q); reflexivity.
Qed.

Lemma store_idempotent (f : format) (x : number) :
  (1 <= prec f)%Z -> store f (store f x) = store f x.
Proof.
  intros Hp. destruct x as [q| | |]; try reflexivity.
  unfold store. destruct (round_to f q) as [r|] eqn:E.
  - rewrite (round_to_idempotent f q r Hp E). reflexivity.
  - destruct (Qlt_bool 0 q); reflexivity.
Qed.

Lemma float32_idempotent (x : number) : float32 (float32 x) = float32 x.
Proof. apply store_idempotent. cbn. lia. Qed.

Lemma float32_keeps_infinite (x : number) : isinf x = true -> isinf (float32 x) = true.
Proof. destruct x; try discriminate; reflexivity. Qed.

Lemma float32_keeps_nan (x : number) : isnan (float32 x) = isnan x.
Proof.
  destruct x as [q| | |]; try reflexivity.
  unfold float32, store. destruct (round_to binary32 q); [reflexivity|].
  destruct (Qlt_bool 0 q); reflexivity.
Qed.

(** What is infinite in binary32: the infinities, and the finite values
    from [2^128 - 2^103] on in magnitude. *)
Lemma infinite32_threshold (x : number) :
  infinite32 x = true
  <-> isinf x = true
      \/ exists q, x = Fin q /\ (overflow_threshold binary32 <= Qabs q)%Q.
Proof.
  destruct binary32_valid as [Hp Hlo]. unfold infinite32. split.
  - destruct x as [q| | |]; try discriminate; auto.
    intros H. right. exists q. split; [reflexivity|].
    destruct (Qlt_le_dec (Qabs q) (overflow_threshold binary32)) as [Hlt|Hle];
      [|exact Hle].
    unfold float32 in H. rewrite (store_in_range _ _ Hp Hlo Hlt) in H. discriminate.
  - intros [H | (q & -> & H)].
    + apply float32_keeps_infinite, H.
    + apply (store_out_of_range _ _ Hp Hlo H).
Qed.

Lemma finite32_float32 (x : number) :
  finite32 x = true <-> isfinite (float32 x) = true.
Proof.
  destruct binary32_valid as [Hp Hlo].
  destruct x as [q| | |]; try (split; discriminate).
  unfold finite32. rewrite Qlt_bool_iff. split.
  - intros H. unfold float32. rewrite (store_in_range _ _ Hp Hlo H). reflexivity.
  - intros H. apply Qnot_le_lt. intros Hle.
    pose proof (store_out_of_range _ _ Hp Hlo Hle) as Hinf.
    unfold float32 in H. destruct (store binary32 (Fin q)); discriminate.
Qed.

Lemma finite32_not_infinite (x : number) : finite32 x = true -> infinite32 x = false.
Proof.
  intros H. apply finite32_float32 in H. unfold infinite32.
  destruct (float32 x); try discriminate; reflexivity.
Qed.

Lemma astype_float32_nan (X : matrix) : contains_nan X -> contains_nan (astype_float32 X).
Proof.
  unfold contains_nan, astype_float32. intros H.
  induction H as [row X Hrow | row X _ IH]; simpl.
  - apply Exists_cons_hd.
    induction Hrow as [x row Hx | x row _ IHrow]; simpl.
    + apply Exists_cons_hd. rewrite float32_keeps_nan. exact Hx.
    + apply Exists_cons_tl, IHrow.
  - apply Exists_cons_tl, IH.
Qed.

Lemma astype_float32_isnan (X : matrix) :
  map (map isnan) (astype_float32 X) = map (map isnan) X.
Proof.
  unfold astype_float32. rewrite map_map. apply map_ext. intros row.
  rewrite map_map. apply map_ext. intros x. apply float32_keeps_nan.
Qed.

Lemma astype_float32_fixed (X : matrix) : float32_valued X <-> astype_float32 X = X.
Proof.
  unfold float32_valued, astype_float32. split.
  - intros H. induction H as [|row X Hrow _ IH]; simpl; [reflexivity|].
    rewrite IH. f_equal.
    induction Hrow as [|x row Hx _ IHrow]; simpl; [reflexivity|].
    rewrite IHrow, Hx. reflexivity.
  - induction X as [|row X IH]; simpl; intros H; [constructor|].
    injection H as Hrow HX. constructor; [|apply IH, HX].
    clear IH HX. induction row as [|x row IHrow]; simpl in *; [constructor|].
    injection Hrow as Hx Hrow. constructor; [exact Hx | apply IHrow, Hrow].
Qed.

Lemma all_finite32_no_infinite32 (X : matrix) : all_finite32 X -> no_infinite32 X.
Proof.
  unfold all_finite32, no_infinite32. intros H.
  eapply Forall_impl; [exact H|]. intros row Hrow.
  eapply Forall_impl; [exact Hrow|]. intros x. apply finite32_not_infinite.
Qed.

Lemma all_finite32_output (X : matrix) :
  all_finite32 X -> Forall (Forall (fun x => isfinite x = true)) (astype_float32 X).
Proof.
  unfold all_finite32, astype_float32. intros H.
  induction H as [|row X Hrow _ IH]; simpl; constructor; [|exact IH].
  clear IH. induction Hrow as [|x row Hx _ IHrow]; simpl; constructor; [|exact IHrow].
  apply finite32_float32, Hx.
Qed.

Lemma existsb_isinf_astype (row : list number) :
  existsb isinf (map float32 row) = row_infinite32 row.
Proof.
  unfold row_infinite32, infinite32.
  induction row as [|x row IH]; simpl; [reflexivity|]. rewrite IH. reflexivity.
Qed.

Lemma kept_rows_astype (V : matrix) :
  List.filter row_finite (astype_float32 V)
  = astype_float32 (List.filter (fun row => negb (row_infinite32 row)) V).
Proof.
  unfold astype_float32.
  induction V as [|row V IH]; simpl; [reflexivity|].
  unfold row_finite at 1. rewrite existsb_isinf_astype.
  destruct (row_infinite32 row); simpl; rewrite IH; reflexivity.
Qed.

Lemma excluded_rows_astype (V : matrix) :
  length (List.filter (existsb isinf) (astype_float32 V))
  = length (List.filter row_infinite32 V).
Proof.
  unfold astype_float32.
  induction V as [|row V IH]; simpl; [reflexivity|].
  rewrite existsb_isinf_astype.
  destruct (row_infinite32 row); simpl; rewrite IH; reflexivity.
Qed.

Lemma row_partition_length (V : matrix) :
  (length (List.filter (fun row => negb (row_infinite32 row)) V)
   + length (List.filter row_infinite32 V) = length V)%nat.
Proof.
  induction V as [|row V IH]; simpl; [reflexivity|].
  destruct (row_infinite32 row); simpl; lia.
Qed.

Lemma no_infinite32_dropped (X : matrix) :
  no_infinite32 X -> List.filter (existsb isinf) (astype_float32 X) = [].
Proof.
  unfold no_infinite32, astype_float32. intros H.
  induction H as [|row X Hrow _ IH]; simpl; [reflexivity|].
  assert (Hr : existsb isinf (map float32 row) = false).
  { clear IH. induction Hrow as [|x row Hx _ IHrow]; simpl; [reflexivity|].
    unfold infinite32 in Hx. rewrite Hx, IHrow. reflexivity. }
  rewrite Hr. exact IH.
Qed.

Lemma preprocess_input_no_infinite (X : array_like) (scaler : option artifact) :
  no_infinite32 (array_values X) ->
  preprocess_input X scaler
  = MkPy [] (scaled scaler (astype_float32 (array_values X))).
Proof.
  intros H. rewrite preprocess_input_unfold. cbv zeta.
  rewrite (filter_nothing_dropped (astype_float32 (array_values X)))
    by (rewrite no_infinite32_dropped by exact H; reflexivity).
  rewrite no_infinite32_dropped by exact H. reflexivity.
Qed.

(** C4 (as amended). For every input matrix, the rows that the
    preprocessor leaves out are exactly the input rows with at least one
    entry that is infinite once stored as float32: an infinity, or a finite
    value from [2^128 - 2^103] on in magnitude, which float32 rounds to an
    infinity.  The other rows are returned in the order of the input, each
    entry rounded to float32; the count that is printed is the number of
    rows left out, and nothing is printed when none is. *)
Theorem preprocess_excludes_exactly_infinite_rows
    (X : array_like) (scaler : option artifact) :
  let V := array_values X in
  let kept := List.filter (fun row => negb (row_infinite32 row)) V in
  let excluded := List.filter row_infinite32 V in
  result (preprocess_input X None) = Return (astype_float32 kept)
  /\ result (preprocess_input X scaler) = scaled scaler (astype_float32 kept)
  /\ stdout (preprocess_input X scaler) = drop_report (length excluded)
  /\ (forall row, In row kept <-> In row V /\ row_infinite32 row = false)
  /\ (forall row, In row excluded <-> In row V /\ row_infinite32 row = true)
  /\ (length kept + length excluded = length V)%nat
  /\ (forall x, infinite32 x = true
                <-> isinf x = true
                    \/ exists q, x = Fin q
                                 /\ (overflow_threshold binary32 <= Qabs q)%Q).
Proof.
  cbv zeta. rewrite !preprocess_input_unfold. cbv zeta. simpl.
  rewrite kept_rows_astype, excluded_rows_astype.
  split; [reflexivity|]. split; [reflexivity|]. split; [reflexivity|].
  split; [|split; [|split]].
  - intros row. rewrite filter_In, negb_true_iff. reflexivity.
  - intros row. rewrite filter_In. reflexivity.
  - apply row_partition_length.
  - apply infinite32_threshold.
Qed.

(** C4 as stated fails: the first row holds one finite value and no
    infinite one, and it is left out, because [2^130] is beyond the range
    of float32. *)
Lemma finite_row_is_excluded :
  existsb isinf [Fin (inject_Z (2 ^ 130))] = false
  /\ preprocess_input (ArrayLike [[Fin (inject_Z (2 ^ 130))]; [Fin 7]]) None
     = MkPy ["Warning: 1 samples with infinite values were removed."] (Return [[Fin 7]]).
Proof. split; [reflexivity | vm_compute; reflexivity]. Qed.

(** C5 (as amended). An input matrix that contains NaN entries and no
    entry that is infinite once stored as float32 keeps every row: the
    output is the whole matrix rounded to float32, NaN where the input has
    NaN, and nothing is reported as removed. *)
Theorem preprocess_keeps_nan_rows (X : array_like) :
  contains_nan (array_values X) ->
  no_infinite32 (array_values X) ->
  preprocess_input X None = MkPy [] (Return (astype_float32 (array_values X)))
  /\ length (astype_float32 (array_values X)) = length (array_values X)
  /\ contains_nan (astype_float32 (array_values X))
  /\ map (map isnan) (astype_float32 (array_values X))
     = map (map isnan) (array_values X).
Proof.
  intros Hnan Hinf. split; [|split; [|split]].
  - rewrite preprocess_input_no_infinite by exact Hinf. reflexivity.
  - unfold astype_float32. apply length_map.
  - apply astype_float32_nan, Hnan.
  - apply astype_float32_isnan.
Qed.

Lemma preprocess_keeps_nan_rows_witness :
  preprocess_input (ArrayLike [[NaN; Fin 1]; [Fin 2; Fin 3]]) None
  = MkPy [] (Return [[NaN; Fin 1]; [Fin 2; Fin 3]]).
Proof.
  refine (proj1 (preprocess_keeps_nan_rows (ArrayLike [[NaN; Fin 1]; [Fin 2; Fin 3]]) _ _)).
  - apply Exists_cons_hd, Exists_cons_hd. reflexivity.
  - repeat constructor.
Defined.

(** C5 as stated fails: the matrix holds a NaN and no infinite value, and
    its first row is removed, because [2^130] is stored as an infinity. *)
Lemma nan_matrix_loses_a_row :
  contains_nan [[NaN; Fin (inject_Z (2 ^ 130))]; [Fin 1; Fin 2]]
  /\ Forall (Forall (fun x => isinf x = false))
       [[NaN; Fin (inject_Z (2 ^ 130))]; [Fin 1; Fin 2]]
  /\ preprocess_input (ArrayLike [[NaN; Fin (inject_Z (2 ^ 130))]; [Fin 1; Fin 2]]) None
     = MkPy ["Warning: 1 samples with infinite values were removed."]
            (Return [[Fin 1; Fin 2]]).
Proof.
  split; [|split].
  - apply Exists_cons_hd, Exists_cons_hd. reflexivity.
  - repeat constructor.
  - vm_compute. reflexivity.
Qed.

(** C6 (as amended). Without a scaler, a matrix all of whose entries are
    finite once stored as float32 (finite values below [2^128 - 2^103] in
    magnitude) comes back whole and in order, each entry rounded to
    float32 and still finite, and nothing is printed.  It comes back
    unchanged exactly when every entry is a float32 value already. *)
Theorem preprocess_identity_on_finite_rows (X : array_like) :
  all_finite32 (array_values X) ->
  preprocess_input X None = MkPy [] (Return (astype_float32 (array_values X)))
  /\ Forall (Forall (fun x => isfinite x = true)) (astype_float32 (array_values X))
  /\ (preprocess_input X None = MkPy [] (Return (array_values X))
      <-> float32_valued (array_values X)).
Proof.
  intros H.
  assert (Hrun : preprocess_input X None
                 = MkPy [] (Return (astype_float32 (array_values X)))).
  { rewrite preprocess_input_no_infinite by (apply all_finite32_no_infinite32, H).
    reflexivity. }
  split; [exact Hrun|]. split; [apply all_finite32_output, H|].
  rewrite Hrun, astype_float32_fixed. split.
  - intros [= E]. exact E.
  - intros ->. reflexivity.
Qed.

Lemma preprocess_identity_on_finite_rows_witness :
  preprocess_input (ArrayLike [[Fin 100; Fin (1 # 2)]; [Fin 0; Fin (-3)]]) None
  = MkPy [] (Return [[Fin 100; Fin (1 # 2)]; [Fin 0; Fin (-3)]]).
Proof.
  apply (preprocess_identity_on_finite_rows
           (ArrayLike [[Fin 100; Fin (1 # 2)]; [Fin 0; Fin (-3)]])).
  - repeat constructor.
  - repeat constructor.
Defined.

(** C6 as stated fails: both entries are finite, and neither comes back
    as it was.  16777217 needs 25 bits and is rounded to 16777216; the
    double nearest to 0.1 is rounded to the float32 nearest to it. *)
Lemma finite_matrix_is_rounded :
  Forall (Forall (fun x => isfinite x = true))
    [[Fin 16777217; Fin (3602879701896397 # 36028797018963968)]]
  /\ preprocess_input
       (ArrayLike [[Fin 16777217; Fin (3602879701896397 # 36028797018963968)]]) None
     = MkPy [] (Return [[Fin 16777216; Fin (13421773 # 134217728)]])
  /\ [[Fin 16777216; Fin (13421773 # 134217728)]]
     <> [[Fin 16777217; Fin (3602879701896397 # 36028797018963968)]].
Proof.
  split; [|split].
  - repeat constructor.
  - vm_compute. reflexivity.
  - discriminate.
Qed.

Example preprocess_drops_infinite_rows :
  preprocess_input
    (ArrayLike [[Fin 1; PosInf]; [NaN; Fin 2]; [NegInf; Fin 3]; [Fin 4; Fin 5]]) None
  = MkPy ["Warning: 2 samples with infinite values were removed."]
         (Return [[NaN; Fin 2]; [Fin 4; Fin 5]]).
Proof. vm_compute. reflexivity. Qed.

Example preprocess_all_rows_dropped :
  preprocess_input (DataFrame [[PosInf]]) None
  = MkPy ["Warning: 1 samples with infinite values were removed."] (Return []).
Proof. reflexivity. Qed.

(** ** The loader *)

(** C7. When the probed folder holds [model.h5] or [keras_model.h5] and the
    neural-network runtime is not available, loading fails with the
    runtime-unavailable error, whatever tree-ensemble files the folder holds
    besides. *)
Theorem h5_without_keras_is_an_error (env : Env) (folder_path : string) :
  keras env = None ->
  path_exists env (path_join (probed_folder env folder_path) "model.h5") = true
  \/ path_exists env (path_join (probed_folder env folder_path) "keras_model.h5") = true ->
  load_model_from_folder env folder_path = MkPy [] (Raise keras_unavailable).
Proof.
  intros Hk Hex. unfold load_model_from_folder, probed_folder in *. simpl.
  destruct (path_exists env (path_join _ "model.h5")) eqn:H1.
  - rewrite Hk. reflexivity.
  - destruct Hex as [Hex|Hex]; [discriminate|].
    rewrite Hex, Hk. reflexivity.
Qed.

Lemma h5_without_keras_is_an_error_witness :
  load_model_from_folder h5_env "models" = MkPy [] (Raise keras_unavailable).
Proof.
  apply (h5_without_keras_is_an_error h5_env "models").
  - reflexivity.
  - right. reflexivity.
Defined.

(** ** The feature extractor *)

Lemma positive_not_zero (y : number) : num_ltb (Fin 0) y = true -> num_eqb y (Fin 0) = false.
Proof.
  destruct y as [q| | |]; simpl; try reflexivity; try discriminate.
  unfold Qlt_bool. intros H. apply negb_true_iff in H.
  destruct (Qeq_bool q 0) eqn:E; [|reflexivity].
  apply Qeq_bool_iff in E.
  assert (Hle : Qle_bool q 0 = true) by (apply Qle_bool_iff; rewrite E; apply Qle_refl).
  congruence.
Qed.

Lemma positive_int (n : Z) : num_ltb (Fin 0) (num_of_Z n) = true -> (0 < n)%Z.
Proof.
  unfold num_of_Z. simpl. rewrite Qlt_bool_iff. intros H.
  rewrite Zlt_Qlt. exact H.
Qed.

Lemma float_of_int_in_range (n : Z) :
  Qlt_bool (Qabs (inject_Z n)) (overflow_threshold binary64) = true ->
  float_of_int n = Return (float64 (num_of_Z n)).
Proof.
  destruct binary64_valid as [Hp Hlo]. rewrite Qlt_bool_iff. intros H.
  unfold float_of_int, float64, num_of_Z, store.
  rewrite (round_to_in_range _ _ Hp Hlo H). reflexivity.
Qed.

(** The float of a positive [int] is not zero. *)
Lemma float_of_int_positive (n : Z) (x : number) :
  (0 < n)%Z -> float_of_int n = Return x -> num_eqb x (Fin 0) = false.
Proof.
  intros Hn. unfold float_of_int, round_to.
  destruct (Qle_bool _ _); [discriminate|]. intros [= <-]. unfold num_eqb.
  apply Qeq_bool_false.
  assert (Hq : (0 < inject_Z n)%Q) by (rewrite <- (Zlt_Qlt 0); exact Hn).
  destruct (floor_log2_spec _ Hq) as [_ Hup].
  assert (Hk : (0 <= floor_log2 (inject_Z n))%Z).
  { assert (H1 : (pow2 0 <= inject_Z n)%Q).
    { change (pow2 0) with (inject_Z 1). rewrite <- Zle_Qle. lia. }
    assert (H2 : (0 < floor_log2 (inject_Z n) + 1)%Z) by (apply pow2_lt_inv; lra).
    lia. }
  assert (Hlow : (pow2 (floor_log2 (inject_Z n))
                  <= round_binary (prec binary64) (emin binary64) (inject_Z n))%Q).
  { apply round_binary_lower; [cbn; lia | exact Hq | cbn; lia]. }
  pose proof (pow2_pos (floor_log2 (inject_Z n))). intros E.
  cbn [prec emin binary64] in Hlow. lra.
Qed.

Lemma int_quotient_in_range (m n : Z) :
  (0 < n)%Z ->
  Qlt_bool (Qabs (inject_Z m)) (overflow_threshold binary64) = true ->
  (Qabs (inject_Z m / inject_Z n) < overflow_threshold binary64)%Q.
Proof.
  intros Hn. rewrite Qlt_bool_iff. intros Hm.
  assert (Hq : (1 <= inject_Z n)%Q).
  { change 1%Q with (inject_Z 1). rewrite <- Zle_Qle. lia. }
  eapply Qle_lt_trans; [|exact Hm].
  unfold Qdiv. rewrite Qabs_Qmult, Qabs_Qinv, (Qabs_pos (inject_Z n)) by lra.
  apply Qle_shift_div_r; [lra|].
  pose proof (Qabs_nonneg (inject_Z m)) as H0.
  apply Qle_trans with (1 * Qabs (inject_Z m))%Q; [lra|].
  rewrite (Qmult_comm (Qabs (inject_Z m))).
  apply Qmult_le_compat_r; [exact Hq | exact H0].
Qed.

(** Within the float range a guarded division returns the nearest float
    to the quotient. *)
Lemma true_divide_in_range (a b : pyval) :
  in_float_range a = true -> in_float_range b = true -> positive b = true ->
  true_divide a b = Return (VNum (quotient a b)).
Proof.
  destruct binary64_valid as [Hp Hlo].
  unfold in_float_range, positive, as_number, true_divide, quotient.
  destruct (as_pynum a) as [[m|x]|]; [| |discriminate];
    (destruct (as_pynum b) as [[n|y]|]; [| |discriminate]);
    intros Ha Hb Hpos.
  - apply positive_int in Hpos. unfold int_true_divide.
    destruct (Z.eqb_spec n 0) as [->|_]; [lia|].
    pose proof (int_quotient_in_range m n Hpos Ha) as Hq.
    unfold float64, store. rewrite (round_to_in_range _ _ Hp Hlo Hq). reflexivity.
  - cbn [float_of_pynum]. rewrite (float_of_int_in_range m Ha). cbn [obind].
    unfold float_true_divide. rewrite (positive_not_zero _ Hpos). reflexivity.
  - cbn [float_of_pynum]. pose proof (float_of_int_in_range n Hb) as Hn.
    rewrite Hn. cbn [obind]. unfold float_true_divide.
    rewrite (float_of_int_positive n _ (positive_int n Hpos) Hn). reflexivity.
  - cbn [float_of_pynum obind]. unfold float_true_divide.
    rewrite (positive_not_zero _ Hpos). reflexivity.
Qed.

Lemma protocol_lookup_table (protocol : pyval) :
  hashable protocol = true ->
  protocol_lookup protocol = Return (VInt (protocol_number protocol)).
Proof.
  destruct protocol as [x|n|b|s| |items|entries]; simpl; try reflexivity; try discriminate.
  intros _. unfold protocol_map. do 2 f_equal.
  destruct (String.eqb s "TCP") eqn:E1.
  { apply String.eqb_eq in E1. subst. reflexivity. }
  apply String.eqb_neq in E1. rewrite lookup_insert_ne by congruence.
  destruct (String.eqb s "UDP") eqn:E2.
  { apply String.eqb_eq in E2. subst. reflexivity. }
  apply String.eqb_neq in E2. rewrite lookup_insert_ne by congruence.
  destruct (String.eqb s "ICMP") eqn:E3.
  { apply String.eqb_eq in E3. subst. reflexivity. }
  apply String.eqb_neq in E3. rewrite lookup_insert_ne by congruence.
  rewrite lookup_empty. reflexivity.
Qed.

Lemma greater_than_zero_positive (v : pyval) :
  in_float_range v = true -> greater_than_zero v = Return (positive v).
Proof.
  unfold in_float_range, greater_than_zero, positive, as_number.
  destruct (as_pynum v) as [[n|x]|]; [reflexivity | reflexivity | discriminate].
Qed.

(** The features of a flow whose counters and duration are numbers within
    the float range. *)
Lemma extraction_body_numeric (entries : list (string * pyval)) :
  in_float_range (flow_field entries "packet_count" zero) = true ->
  in_float_range (flow_field entries "byte_count" zero) = true ->
  in_float_range (flow_field entries "duration_seconds" zero) = true ->
  hashable (flow_protocol entries) = true ->
  exists features,
    extraction_body (VDict entries) = Return features
    /\ features !! "packets_per_second"
       = Some (guarded_ratio (flow_field entries "packet_count" zero)
                             (flow_field entries "duration_seconds" zero))
    /\ features !! "bytes_per_second"
       = Some (guarded_ratio (flow_field entries "byte_count" zero)
                             (flow_field entries "duration_seconds" zero))
    /\ features !! "avg_packet_size"
       = Some (guarded_ratio (flow_field entries "byte_count" zero)
                             (flow_field entries "packet_count" zero))
    /\ features !! "protocol_num" = Some (VInt (protocol_number (flow_protocol entries))).
Proof.
  unfold flow_field, flow_protocol. intros Hpc Hbc Hdur Hp.
  unfold extraction_body, dict_get, obind, guarded_ratio.
  rewrite (greater_than_zero_positive _ Hdur), (greater_than_zero_positive _ Hpc).
  rewrite (protocol_lookup_table _ Hp).
  destruct (positive (default zero (assoc_get entries "duration_seconds"))) eqn:Ed;
    destruct (positive (default zero (assoc_get entries "packet_count"))) eqn:Ep;
    rewrite ?(true_divide_in_range _ _ Hpc Hdur Ed),
            ?(true_divide_in_range _ _ Hbc Hdur Ed),
            ?(true_divide_in_range _ _ Hbc Hpc Ep);
    eexists; (split; [reflexivity|]);
    repeat split; simplify_map_eq; reflexivity.
Qed.




Example extract_features_zero_duration :
  exists features,
    extract_features idle_flow = MkPy [] (Return features)
    /\ features !! "packets_per_second" = Some (VInt 0)
    /\ features !! "bytes_per_second" = Some (VInt 0)
    /\ features !! "avg_packet_size" = Some (VInt 0).
Proof.
  eexists. split; [reflexivity|]. repeat split; reflexivity.
Qed.

(** Integers are divided exactly and rounded once; the quotient of two
    floats overflows to an infinity instead of raising. *)
Example true_divide_rounds :
  true_divide (VInt 1) (VInt 3) = Return (VNum (Fin (6004799503160661 # 18014398509481984)))
  /\ true_divide (VInt (2 ^ 53 + 1)) (VInt 3) = Return (VNum (Fin 3002399751580331))
  /\ true_divide (VInt (2 ^ 53 + 1)) (VNum (Fin 3))
     = Return (VNum (Fin (6004799503160661 # 2)))
  /\ true_divide (VNum (Fin (inject_Z (2 ^ 1023)))) (VNum (Fin (1 # 2)))
     = Return (VNum PosInf)
  /\ true_divide (VInt (10 ^ 400)) (VNum (Fin 1))
     = Raise (Exn OverflowError "int too large to convert to float").
Proof. repeat split; vm_compute; reflexivity. Qed.

(** C10. A flow record without a [protocol] field is treated as TCP:
    whenever extraction returns, [protocol] is "TCP" and [protocol_num] is
    6; and it does return when the counters and the duration are numbers
    within the float range. *)
Theorem absent_protocol_defaults_to_tcp (entries : list (string * pyval)) :
  assoc_get entries "protocol" = None ->
  (forall features,
      result (extract_features (VDict entries)) = Return features ->
      features !! "protocol" = Some (VStr "TCP")
      /\ features !! "protocol_num" = Some (VInt 6))
  /\ (in_float_range (flow_field entries "packet_count" zero) = true ->
      in_float_range (flow_field entries "byte_count" zero) = true ->
      in_float_range (flow_field entries "duration_seconds" zero) = true ->
      exists features, extract_features (VDict entries) = MkPy [] (Return features)).
Proof.
  intros Hnone. split.
  - intros features. unfold extract_features, try_except, lift. simpl.
    destruct (extraction_body (VDict entries)) as [fs|e] eqn:Hbody; simpl;
      [|discriminate].
    intros [= <-]. revert Hbody.
    unfold extraction_body, dict_get, obind. rewrite Hnone. simpl.
    destruct (greater_than_zero _) as [[|]|]; try discriminate;
      repeat (destruct (true_divide _ _); try discriminate);
      destruct (greater_than_zero _) as [[|]|]; try discriminate;
      repeat (destruct (true_divide _ _); try discriminate);
      intros [= <-]; split; simplify_map_eq; reflexivity.
  - intros Hpc Hbc Hdur.
    destruct (extraction_body_numeric entries Hpc Hbc Hdur)
      as (features & Hbody & _).
    { unfold flow_protocol. rewrite Hnone. reflexivity. }
    exists features. unfold extract_features, try_except, lift. simpl.
    rewrite Hbody. reflexivity.
Qed.

Lemma absent_protocol_defaults_to_tcp_witness :
  exists features,
    extract_features idle_flow = MkPy [] (Return features)
    /\ features !! "protocol" = Some (VStr "TCP")
    /\ features !! "protocol_num" = Some (VInt 6).
Proof.
  destruct (absent_protocol_defaults_to_tcp
              [("flow_id", VStr "f2");
               ("packet_count", VInt 0); ("byte_count", VInt 0);
               ("duration_seconds", VInt 0)] eq_refl) as [Hdefault Hreturns].
  destruct (Hreturns eq_refl eq_refl eq_refl) as [features Hfeatures].
  exists features. split; [exact Hfeatures|].
  apply Hdefault. unfold idle_flow. rewrite Hfeatures. reflexivity.
Defined.

(** ** The monad *)

Lemma bind_return {A B} (m : Py A) (k : A -> Py B) (b : B) :
  result (bind m k) = Return b ->
  exists a, result m = Return a /\ result (k a) = Return b.
Proof.
  unfold bind. destruct (result m) as [a|e]; simpl; [eauto | discriminate].
Qed.

Lemma bind_of_return {A B} (out : list string) (a : A) (k : A -> Py B) :
  bind (MkPy out (Return a)) k = MkPy (out ++ stdout (k a)) (result (k a)).
Proof. reflexivity. Qed.

Lemma bind_silent_return {A B} (m : Py A) (k : A -> Py B) (a : A) :
  stdout m = [] -> result m = Return a -> bind m k = k a.
Proof.
  intros Hs Hr. unfold bind. rewrite Hs, Hr. simpl. destruct (k a); reflexivity.
Qed.

Lemma bind_silent_raise {A B} (m : Py A) (k : A -> Py B) (e : exn) :
  stdout m = [] -> result m = Raise e -> bind m k = MkPy [] (Raise e).
Proof. intros Hs Hr. unfold bind. rewrite Hs, Hr. reflexivity. Qed.

Lemma py_eta {A} (m : Py A) : m = MkPy (stdout m) (result m).
Proof. destruct m; reflexivity. Qed.

(** ** The prediction normaliser *)

Lemma confidence_of_silent (model : option artifact) (X : matrix) :
  stdout (confidence_of model X) = [].
Proof.
  unfold confidence_of, call_predict.
  destruct (has_predict_proba model) as [f|].
  - unfold bind, lift; simpl. destruct (f X) as [o|e]; simpl; [|reflexivity].
    destruct (proba_array o) as [a|e]; simpl; [|reflexivity].
    destruct (_ && _); simpl; [|reflexivity]. destruct (np_max a); reflexivity.
  - unfold try_except. destruct (model ≫= predict) as [f|]; simpl; [|reflexivity].
    unfold bind, lift; simpl. destruct (f X) as [[a| | | |]|e]; simpl; try reflexivity.
    destruct (np_max a); reflexivity.
Qed.

Lemma class_of_silent (model : option artifact) (X : matrix) :
  stdout (class_of model X) = [].
Proof.
  unfold class_of, call_predict, try_except.
  destruct (model ≫= predict) as [f|]; simpl; [|reflexivity].
  unfold bind, lift; simpl. destruct (f X) as [[a| | | |]|e]; simpl; try reflexivity.
  destruct (Nat.ltb 1 (ndim a)); simpl.
  - destruct (argmax_axis1 a) as [a'|e]; simpl; [|reflexivity].
    destruct (scalar_of_prediction a'); reflexivity.
  - destruct (scalar_of_prediction a); reflexivity.
Qed.

Lemma try_except_returns {A} (body : Py A) (handler : exn -> Py A) :
  (forall e, exists a, result (handler e) = Return a) ->
  exists a, result (try_except body handler) = Return a.
Proof.
  intros Hh. unfold try_except.
  destruct (result body) as [a|e] eqn:E.
  - exists a. exact E.
  - simpl. apply Hh.
Qed.

(** The class step never raises. *)
Lemma class_of_returns (model : option artifact) (X : matrix) :
  exists pred, result (class_of model X) = Return pred.
Proof.
  unfold class_of. apply try_except_returns. intros e. eexists. reflexivity.
Qed.


(** [predict_threat] once the features are prepared. *)
Lemma predict_threat_prepared (env : Env) (features : gmap string pyval)
    (model : option artifact) (out : list string) (X : matrix) :
  prepare_features env features = MkPy out (Return X) ->
  predict_threat env features model
  = MkPy out
      (match result (confidence_of model X), result (class_of model X) with
       | Return conf, Return pred => Return (make_decision conf pred)
       | Raise e, _ => Raise e
       | _, Raise e => Raise e
       end).
Proof.
  intros Hprep. unfold predict_threat. rewrite Hprep, bind_of_return.
  pose proof (confidence_of_silent model X) as Hs1.
  pose proof (class_of_silent model X) as Hs2.
  destruct (result (confidence_of model X)) as [conf|e] eqn:Ec.
  - rewrite (bind_silent_return _ _ _ Hs1 Ec).
    destruct (result (class_of model X)) as [pred|e] eqn:Ep.
    + rewrite (bind_silent_return _ _ _ Hs2 Ep). simpl. rewrite app_nil_r. reflexivity.
    + rewrite (bind_silent_raise _ _ _ Hs2 Ep). simpl. rewrite app_nil_r. reflexivity.
  - rewrite (bind_silent_raise _ _ _ Hs1 Ec). simpl. rewrite app_nil_r. reflexivity.
Qed.

Lemma predict_threat_decision (env : Env) (features : gmap string pyval)
    (model : option artifact) (r : decision) :
  result (predict_threat env features model) = Return r ->
  exists X conf pred,
    result (prepare_features env features) = Return X
    /\ result (confidence_of model X) = Return conf
    /\ r = make_decision conf pred.
Proof.
  unfold predict_threat. intros H.
  apply bind_return in H as (X & HX & H).
  apply bind_return in H as (conf & Hc & H).
  apply bind_return in H as (pred & Hp & H).
  simpl in H. injection H as <-. eauto 6.
Qed.

(** C3. In every record that [predict_threat] returns, [is_malicious] is
    true exactly when [prediction] is the string "malicious"; the other
    possible [prediction] is "benign". *)
Theorem is_malicious_agrees_with_prediction (env : Env)
    (features : gmap string pyval) (model : option artifact) (r : decision) :
  result (predict_threat env features model) = Return r ->
  is_malicious r = String.eqb (prediction r) "malicious"
  /\ (prediction r = "malicious" \/ prediction r = "benign").
Proof.
  intros H. apply predict_threat_decision in H as (X & conf & pred & _ & _ & ->).
  unfold make_decision; simpl. destruct (equals_one pred); simpl; auto.
Qed.

Lemma is_malicious_agrees_with_prediction_witness :
  is_malicious (make_decision (Fin (4 # 5)) (PyNumber (Fin 1))) = true
  /\ prediction (make_decision (Fin (4 # 5)) (PyNumber (Fin 1))) = "malicious".
Proof.
  pose proof (is_malicious_agrees_with_prediction bare_env ∅ (Some forest_model)
                (make_decision (Fin (4 # 5)) (PyNumber (Fin 1))) eq_refl) as [H _].
  split; [exact H | reflexivity].
Defined.

(** *** Scores in the unit interval *)













(** A [predict_proba] that raises is not absorbed. *)
Example failing_predict_proba_propagates :
  predict_threat bare_env ∅ (Some failing_proba_model)
  = MkPy [] (Raise (value_error
       "X has 9 features, but the model is expecting 78 features as input.")).
Proof. reflexivity. Qed.

(** ** The batch endpoint *)

Lemma for_each_success {A B} (f : A -> Py B) (l : list A) (ys : list B) :
  Forall2 (fun x y => result (f x) = Return y) l ys ->
  result (for_each f l) = Return ys.
Proof.
  induction 1 as [|x y l ys Hxy _ IH]; simpl; [reflexivity|].
  unfold bind at 1. rewrite Hxy. simpl.
  unfold bind at 1. rewrite IH. reflexivity.
Qed.

Lemma for_each_failure {A B} (f : A -> Py B) (l : list A) :
  Exists (fun x => exists e, result (f x) = Raise e) l ->
  exists e, result (for_each f l) = Raise e.
Proof.
  induction l as [|x l IH]; intros H; [inversion H|].
  simpl. unfold bind at 1.
  destruct (result (f x)) as [y|e] eqn:Ex; simpl; [|eauto].
  unfold bind at 1.
  destruct (result (for_each f l)) as [ys|e] eqn:El; simpl; [|eauto].
  exfalso. inversion H as [? ? [e He]|? ? Ht]; subst.
  - congruence.
  - destruct (IH Ht) as [e He]. discriminate.
Qed.

(** Each flow is either answered or fails. *)
Lemma for_each_total {A B} (f : A -> Py B) (l : list A) :
  (exists ys, Forall2 (fun x y => result (f x) = Return y) l ys)
  \/ Exists (fun x => exists e, result (f x) = Raise e) l.
Proof.
  induction l as [|x l [[ys IH]|IH]].
  - left. exists []. constructor.
  - destruct (result (f x)) as [y|e] eqn:Ex.
    + left. exists (y :: ys). constructor; assumption.
    + right. apply Exists_cons_hd. eauto.
  - right. apply Exists_cons_tl, IH.
Qed.

(** The request body once [flows] is found to be a list. *)
Lemma predict_batch_flows (env : Env) (model : option artifact)
    (kvs : list (string * pyval)) (flows : list pyval) :
  assoc_get kvs "flows" = Some (VList flows) ->
  result (predict_batch env model (VDict kvs))
  = match result (for_each (predict_flow env model) flows) with
    | Return predictions =>
        Return (Response 200 (BatchBody predictions (length predictions)
                                (count_malicious predictions) (now_isoformat env)))
    | Raise e =>
        Return (Response 500 (ErrorBody ("Batch prediction error: " ++ exn_msg e)))
    end.
Proof.
  intros Hflows. unfold predict_batch, try_except.
  assert (Htruthy : truthy (VDict kvs) = true).
  { destruct kvs; [discriminate | reflexivity]. }
  rewrite Htruthy. simpl negb.
  unfold contains_flows, get_flows, iterate. rewrite Hflows.
  rewrite bool_decide_eq_true_2 by eauto.
  unfold lift, ret. unfold bind at 3 7. simpl.
  unfold bind at 1 3. simpl. unfold bind at 1 3. simpl.
  unfold bind at 1 2. simpl.
  destruct (result (for_each (predict_flow env model) flows)); reflexivity.
Qed.

(** C9 (as amended). For a batch whose [flows] is a list of N flow records:
    when every flow is extracted and classified without error, the answer
    is a 200 response holding exactly N entries, the i-th being the
    decision for the i-th flow, with [total_flows] equal to N and
    [malicious_count] equal to the number of entries whose [is_malicious]
    is true; when some flow fails, the whole batch is answered with a 500
    error and no entry. *)
Theorem batch_is_all_or_nothing (env : Env) (model : option artifact)
    (kvs : list (string * pyval)) (flows : list pyval) :
  assoc_get kvs "flows" = Some (VList flows) ->
  (forall entries,
      Forall2 (flow_ok env model) flows entries ->
      result (predict_batch env model (VDict kvs))
      = Return (Response 200 (BatchBody entries (length flows)
                                (length (List.filter entry_is_malicious entries))
                                (now_isoformat env)))
        /\ length entries = length flows)
  /\ (Exists (flow_fails env model) flows ->
      exists msg, result (predict_batch env model (VDict kvs))
                  = Return (Response 500 (ErrorBody msg))).
Proof.
  intros Hflows. rewrite (predict_batch_flows env model kvs flows Hflows). split.
  - intros entries Hall.
    pose proof (Forall2_length _ _ _ Hall) as Hlen.
    rewrite (for_each_success _ _ _ Hall), Hlen. split; reflexivity.
  - intros Hex. destruct (for_each_failure _ _ Hex) as [e ->]. eauto.
Qed.

Lemma batch_is_all_or_nothing_witness :
  result (predict_batch bare_env (Some forest_model)
            (VDict [("flows", VList [tcp_flow; idle_flow])]))
  = Return (Response 200
      (BatchBody
         [BatchEntry (VStr "f1") "malicious" (Fin (4 # 5)) true "anomaly";
          BatchEntry (VStr "f2") "malicious" (Fin (4 # 5)) true "anomaly"]
         2 2 "2024-01-01T00:00:00")).
Proof.
  refine (proj1 (proj1 (batch_is_all_or_nothing bare_env (Some forest_model)
                   [("flows", VList [tcp_flow; idle_flow])] [tcp_flow; idle_flow] _)
                 [BatchEntry (VStr "f1") "malicious" (Fin (4 # 5)) true "anomaly";
                  BatchEntry (VStr "f2") "malicious" (Fin (4 # 5)) true "anomaly"] _)).
  - reflexivity.
  - repeat constructor.
Defined.

(** C9 as stated fails: two flow records are submitted, the second has a
    malformed duration, and the answer holds no decision record at all. *)
Lemma batch_with_malformed_flow_is_rejected :
  result (predict_batch bare_env (Some forest_model)
            (VDict [("flows", VList [tcp_flow; malformed_flow])]))
  = Return (Response 500
      (ErrorBody "Batch prediction error: '>' not supported between these instances")).
Proof. reflexivity. Qed.

(** Well-formed flows are rejected as well when the model's
    [predict_proba] raises. *)
Example batch_with_failing_predict_proba_is_rejected :
  result (predict_batch bare_env (Some failing_proba_model)
            (VDict [("flows", VList [tcp_flow])]))
  = Return (Response 500
      (ErrorBody "Batch prediction error: X has 9 features, but the model is expecting 78 features as input.")).
Proof. reflexivity. Qed.

(** * Further properties *)

(** ** The preprocessor, continued *)

Lemma existsb_isinf_false (row : list number) :
  existsb isinf row = false <-> Forall (fun x => isinf x = false) row.
Proof.
  induction row as [|x row IH]; simpl.
  - split; [constructor | reflexivity].
  - rewrite orb_false_iff, IH. split.
    + intros [Hx Hrow]. constructor; assumption.
    + intros H. apply Forall_cons in H. exact H.
Qed.

Lemma filter_row_finite_clean (X : matrix) :
  Forall (Forall (fun x => isinf x = false)) (List.filter row_finite X).
Proof.
  induction X as [|row X IH]; simpl; [constructor|].
  unfold row_finite at 1. destruct (existsb isinf row) eqn:E; simpl; [exact IH|].
  constructor; [apply existsb_isinf_false, E | exact IH].
Qed.

Lemma filter_row_finite_fixed (V : matrix) :
  astype_float32 (List.filter row_finite (astype_float32 V))
  = List.filter row_finite (astype_float32 V).
Proof.
  unfold astype_float32.
  induction V as [|row V IH]; simpl; [reflexivity|].
  destruct (row_finite (map float32 row)); simpl; rewrite IH; [|reflexivity].
  f_equal. rewrite map_map. apply map_ext. intros x. apply float32_idempotent.
Qed.

Lemma clean_fixed_no_infinite32 (Y : matrix) :
  astype_float32 Y = Y ->
  Forall (Forall (fun x => isinf x = false)) Y ->
  no_infinite32 Y.
Proof.
  unfold no_infinite32, astype_float32. intros Hfix Hclean.
  rewrite <- Hfix in Hclean. clear Hfix.
  induction Y as [|row Y IH]; simpl in *; [constructor|].
  apply Forall_cons in Hclean as [Hrow HY]. constructor; [|apply IH, HY].
  clear IH HY. induction row as [|x row IHrow]; simpl in *; [constructor|].
  apply Forall_cons in Hrow as [Hx Hrow]. constructor; [exact Hx | apply IHrow, Hrow].
Qed.

(** X1. Without a scaler, no entry of the returned matrix is infinite. *)
Theorem preprocess_output_has_no_infinity (X : array_like) (Y : matrix) :
  result (preprocess_input X None) = Return Y ->
  Forall (Forall (fun x => isinf x = false)) Y.
Proof.
  rewrite preprocess_input_unfold. simpl. intros [= <-].
  apply filter_row_finite_clean.
Qed.

Lemma preprocess_output_has_no_infinity_witness :
  Forall (Forall (fun x => isinf x = false)) [[NaN; Fin 2]; [Fin 4; Fin 5]].
Proof.
  apply (preprocess_output_has_no_infinity
           (ArrayLike [[Fin 1; PosInf]; [NaN; Fin 2]; [NegInf; Fin 3]; [Fin 4; Fin 5]])).
  reflexivity.
Defined.

(** X2. Without a scaler the preprocessor is idempotent: given its own
    output again, it returns it unchanged and reports nothing. *)
Theorem preprocess_idempotent (X : array_like) (Y : matrix) :
  result (preprocess_input X None) = Return Y ->
  preprocess_input (ArrayLike Y) None = MkPy [] (Return Y).
Proof.
  rewrite preprocess_input_unfold. simpl. intros [= <-].
  pose proof (filter_row_finite_fixed (array_values X)) as Hfix.
  rewrite preprocess_input_no_infinite.
  - simpl. rewrite Hfix. reflexivity.
  - simpl. apply clean_fixed_no_infinite32; [exact Hfix|].
    apply filter_row_finite_clean.
Qed.

Lemma preprocess_idempotent_witness :
  preprocess_input (ArrayLike [[NaN; Fin 2]; [Fin 4; Fin 5]]) None
  = MkPy [] (Return [[NaN; Fin 2]; [Fin 4; Fin 5]]).
Proof.
  apply (preprocess_idempotent
           (DataFrame [[Fin 1; PosInf]; [NaN; Fin 2]; [NegInf; Fin 3]; [Fin 4; Fin 5]])).
  reflexivity.
Defined.

Lemma all_rows_infinite (V : matrix) :
  Forall (Exists (fun x => infinite32 x = true)) V ->
  List.filter (existsb isinf) (astype_float32 V) = astype_float32 V
  /\ List.filter row_finite (astype_float32 V) = [].
Proof.
  unfold astype_float32. intros H.
  induction H as [|row V Hrow _ [IH1 IH2]]; simpl; [split; reflexivity|].
  assert (Hr : existsb isinf (map float32 row) = true).
  { clear IH1 IH2. induction Hrow as [x row Hx | x row _ IHrow]; simpl.
    - unfold infinite32 in Hx. rewrite Hx. reflexivity.
    - rewrite IHrow. apply orb_true_r. }
  unfold row_finite at 1. rewrite Hr. simpl. rewrite IH1, IH2. split; reflexivity.
Qed.

(** X3. When every row of a non-empty input holds an infinite entry, the
    result is the empty matrix and the warning counts all the rows; the
    call still returns. *)
Theorem preprocess_may_drop_every_row (X : array_like) :
  array_values X <> [] ->
  Forall (Exists (fun x => infinite32 x = true)) (array_values X) ->
  preprocess_input X None
  = MkPy [removed_warning (length (array_values X))] (Return []).
Proof.
  intros Hne Hall. rewrite preprocess_input_unfold. cbv zeta.
  destruct (all_rows_infinite _ Hall) as [-> ->].
  unfold astype_float32. rewrite length_map. unfold drop_report.
  destruct (array_values X); [congruence | reflexivity].
Qed.

Lemma preprocess_may_drop_every_row_witness :
  preprocess_input (ArrayLike [[Fin 1; PosInf]; [NegInf; NaN]]) None
  = MkPy ["Warning: 2 samples with infinite values were removed."] (Return []).
Proof.
  apply (preprocess_may_drop_every_row (ArrayLike [[Fin 1; PosInf]; [NegInf; NaN]])).
  - discriminate.
  - constructor; [apply Exists_cons_tl, Exists_cons_hd; reflexivity|].
    constructor; [apply Exists_cons_hd; reflexivity | constructor].
Defined.

(** ** The loader, continued *)

Lemma load_optional_lift (env : Env) (path : string) :
  load_optional env path
  = lift (if path_exists env path then joblib_load env path else Return None).
Proof. unfold load_optional. destruct (path_exists env path); reflexivity. Qed.

Lemma companion_lift (env : Env) (path : string) (loaded : option artifact) :
  companion env path loaded <->
  load_optional env path = MkPy [] (Return loaded).
Proof.
  unfold companion. rewrite load_optional_lift. unfold lift.
  destruct (path_exists env path).
  - split; [intros ->; reflexivity | intros [= ->]; reflexivity].
  - split; [intros ->; reflexivity | intros [= <-]; reflexivity].
Qed.

(** The loader by the first existing candidate of each family. *)
Lemma load_model_from_folder_cases (env : Env) (folder_path : string) :
  load_model_from_folder env folder_path
  = match List.find (path_exists env) (h5_candidates env folder_path) with
    | Some h5 =>
        match keras env with
        | None => raise keras_unavailable
        | Some load_model =>
            model <- lift (load_model h5) ;;
            with_companions env folder_path "tensorflow" model
        end
    | None =>
        match List.find (path_exists env) (skl_candidates env folder_path) with
        | None => raise no_model_found
        | Some p =>
            model_obj <- lift (joblib_load env p) ;;
            match model_obj with
            | None => raise no_model_found
            | Some model => with_companions env folder_path "scikit-learn" model
            end
        end
    end.
Proof.
  unfold load_model_from_folder, with_companions, h5_candidates, skl_candidates,
    scaler_path, label_encoder_path, probed_folder.
  set (folder := abspath env _).
  simpl. rewrite ?load_optional_lift.
  destruct (path_exists env (path_join folder "model.h5")).
  { destruct (keras env) as [load|]; [|reflexivity].
    destruct (load _); [|reflexivity].
    destruct (if path_exists env (path_join folder "scaler.joblib") then _ else _);
      [|reflexivity].
    destruct (if path_exists env (path_join folder "label_encoder.joblib") then _ else _);
      reflexivity. }
  destruct (path_exists env (path_join folder "keras_model.h5")).
  { destruct (keras env) as [load|]; [|reflexivity].
    destruct (load _); [|reflexivity].
    destruct (if path_exists env (path_join folder "scaler.joblib") then _ else _);
      [|reflexivity].
    destruct (if path_exists env (path_join folder "label_encoder.joblib") then _ else _);
      reflexivity. }
  assert (Hskl : forall p,
    (found <- @ret (option (artifact * context)) None ;;
     match found with
     | Some loaded => ret loaded
     | None =>
         model_obj <- lift (joblib_load env p) ;;
         match model_obj with
         | Some model =>
             scaler <- lift (if path_exists env (path_join folder "scaler.joblib")
                             then joblib_load env (path_join folder "scaler.joblib")
                             else Return None) ;;
             label_encoder <-
               lift (if path_exists env (path_join folder "label_encoder.joblib")
                     then joblib_load env (path_join folder "label_encoder.joblib")
                     else Return None) ;;
             ret (model, Context folder scaler label_encoder (Some "scikit-learn"))
         | None => raise no_model_found
         end
     end)
    = (model_obj <- lift (joblib_load env p) ;;
       match model_obj with
       | Some model =>
           scaler <- lift (if path_exists env (path_join folder "scaler.joblib")
                           then joblib_load env (path_join folder "scaler.joblib")
                           else Return None) ;;
           label_encoder <-
             lift (if path_exists env (path_join folder "label_encoder.joblib")
                   then joblib_load env (path_join folder "label_encoder.joblib")
                   else Return None) ;;
           ret (model, Context folder scaler label_encoder (Some "scikit-learn"))
       | None => raise no_model_found
       end)).
  { intros p. destruct (joblib_load env p) as [[m|]|]; reflexivity. }
  destruct (path_exists env (path_join folder "model.pkl")); [apply Hskl|].
  destruct (path_exists env (path_join folder "random_forest_model.joblib"));
    [apply Hskl|].
  destruct (path_exists env (path_join folder "model.joblib")); [apply Hskl|].
  reflexivity.
Qed.

Lemma find_absent (env : Env) (paths : list string) :
  Forall (fun p => path_exists env p = false) paths ->
  List.find (path_exists env) paths = None.
Proof.
  induction 1 as [|p paths Hp _ IH]; simpl; [reflexivity|]. rewrite Hp. exact IH.
Qed.

Lemma find_present (env : Env) (paths : list string) (p : string) :
  List.find (path_exists env) paths = Some p -> Exists (fun q => path_exists env q = true) paths.
Proof.
  induction paths as [|q paths IH]; simpl; [discriminate|].
  destruct (path_exists env q) eqn:E.
  - intros _. apply Exists_cons_hd. exact E.
  - intros H. apply Exists_cons_tl, IH, H.
Qed.

Lemma find_none_absent (env : Env) (paths : list string) :
  List.find (path_exists env) paths = None ->
  Forall (fun p => path_exists env p = false) paths.
Proof.
  induction paths as [|q paths IH]; simpl; [constructor|].
  destruct (path_exists env q) eqn:E; [discriminate|].
  intros H. constructor; [exact E | apply IH, H].
Qed.

Lemma with_companions_loaded (env : Env) (folder_path framework : string)
    (model : artifact) (scaler label_encoder : option artifact) :
  companion env (scaler_path env folder_path) scaler ->
  companion env (label_encoder_path env folder_path) label_encoder ->
  with_companions env folder_path framework model
  = MkPy [] (Return (model, Context (probed_folder env folder_path) scaler
                              label_encoder (Some framework))).
Proof.
  intros Hs Hl. apply companion_lift in Hs, Hl.
  unfold with_companions. rewrite Hs, Hl. reflexivity.
Qed.

Lemma with_companions_return (env : Env) (folder_path framework : string)
    (model m : artifact) (ctx : context) :
  result (with_companions env folder_path framework model) = Return (m, ctx) ->
  m = model
  /\ ctx_folder ctx = probed_folder env folder_path
  /\ ctx_framework ctx = Some framework
  /\ companion env (scaler_path env folder_path) (ctx_scaler ctx)
  /\ companion env (label_encoder_path env folder_path) (ctx_label_encoder ctx).
Proof.
  unfold with_companions. intros H.
  apply bind_return in H as (s & Hs & H).
  apply bind_return in H as (l & Hl & H).
  simpl in H. injection H as <- <-. simpl.
  rewrite load_optional_lift in Hs, Hl. unfold lift in Hs, Hl. simpl in Hs, Hl.
  unfold companion.
  repeat split.
  - destruct (path_exists env (scaler_path env folder_path)); congruence.
  - destruct (path_exists env (label_encoder_path env folder_path)); congruence.
Qed.

(** X4. A folder that holds none of the five model files makes the loader
    fail with the no-supported-model error, with or without TensorFlow. *)
Theorem missing_model_is_reported (env : Env) (folder_path : string) :
  Forall (fun p => path_exists env p = false)
    (h5_candidates env folder_path ++ skl_candidates env folder_path) ->
  load_model_from_folder env folder_path = MkPy [] (Raise no_model_found).
Proof.
  intros H. apply Forall_app in H as [Hh5 Hskl].
  rewrite load_model_from_folder_cases, (find_absent _ _ Hh5), (find_absent _ _ Hskl).
  reflexivity.
Qed.

Lemma missing_model_is_reported_witness :
  load_model_from_folder bare_env "models" = MkPy [] (Raise no_model_found).
Proof.
  apply (missing_model_is_reported bare_env "models"). repeat constructor.
Defined.

(** X5. Without a [.h5] file the loader takes the first existing file among
    [model.pkl], [random_forest_model.joblib], [model.joblib], in that
    order; when it deserialises to a model, the call returns that model
    tagged "scikit-learn", with the probed folder and the companions. *)
Theorem tree_ensemble_first_match_wins (env : Env) (folder_path p : string)
    (model : artifact) (scaler label_encoder : option artifact) :
  Forall (fun q => path_exists env q = false) (h5_candidates env folder_path) ->
  List.find (path_exists env) (skl_candidates env folder_path) = Some p ->
  joblib_load env p = Return (Some model) ->
  companion env (scaler_path env folder_path) scaler ->
  companion env (label_encoder_path env folder_path) label_encoder ->
  load_model_from_folder env folder_path
  = MkPy [] (Return (model, Context (probed_folder env folder_path) scaler
                              label_encoder (Some "scikit-learn"))).
Proof.
  intros Hh5 Hfind Hload Hs Hl.
  rewrite load_model_from_folder_cases, (find_absent _ _ Hh5), Hfind, Hload.
  unfold lift. rewrite bind_of_return. simpl.
  rewrite (with_companions_loaded _ _ _ _ _ _ Hs Hl). reflexivity.
Qed.

Lemma tree_ensemble_first_match_wins_witness :
  load_model_from_folder forest_folder_env "models"
  = MkPy [] (Return (forest_model,
                     Context "/srv/ids/models"
                       (Some (Artifact None None (Some (fun X => Return X))))
                       None (Some "scikit-learn"))).
Proof.
  apply (tree_ensemble_first_match_wins forest_folder_env "models"
           "/srv/ids/models/model.pkl").
  - repeat constructor.
  - reflexivity.
  - reflexivity.
  - reflexivity.
  - reflexivity.
Defined.

(** X6. With TensorFlow available, an existing [.h5] file ([model.h5]
    before [keras_model.h5]) is the one loaded, whatever scikit-learn files
    lie beside it; the result is tagged "tensorflow". *)
Theorem keras_model_is_preferred (env : Env) (folder_path h5 : string)
    (load_model : string -> outcome artifact) (model : artifact)
    (scaler label_encoder : option artifact) :
  keras env = Some load_model ->
  List.find (path_exists env) (h5_candidates env folder_path) = Some h5 ->
  load_model h5 = Return model ->
  companion env (scaler_path env folder_path) scaler ->
  companion env (label_encoder_path env folder_path) label_encoder ->
  load_model_from_folder env folder_path
  = MkPy [] (Return (model, Context (probed_folder env folder_path) scaler
                              label_encoder (Some "tensorflow"))).
Proof.
  intros Hk Hfind Hload Hs Hl.
  rewrite load_model_from_folder_cases, Hfind, Hk, Hload.
  unfold lift. rewrite bind_of_return. simpl.
  rewrite (with_companions_loaded _ _ _ _ _ _ Hs Hl). reflexivity.
Qed.

Lemma keras_model_is_preferred_witness :
  load_model_from_folder keras_folder_env "models"
  = MkPy [] (Return (logit_model,
                     Context "/srv/ids/models" None None (Some "tensorflow"))).
Proof.
  apply (keras_model_is_preferred keras_folder_env "models"
           "/srv/ids/models/keras_model.h5" (fun _ => Return logit_model));
    reflexivity.
Defined.

(** X7. A scaler or label-encoder file that exists but cannot be
    deserialised makes the whole load fail: the loader never returns a
    model in that case. *)
Theorem unreadable_companion_fails_the_load (env : Env) (folder_path p : string)
    (e : exn) :
  p = scaler_path env folder_path \/ p = label_encoder_path env folder_path ->
  path_exists env p = true ->
  joblib_load env p = Raise e ->
  exists e', result (load_model_from_folder env folder_path) = Raise e'.
Proof.
  intros Hp Hex Hload.
  assert (Hc : forall framework model,
             exists e', result (with_companions env folder_path framework model) = Raise e').
  { intros framework model. unfold with_companions.
    rewrite !load_optional_lift. destruct Hp as [-> | ->].
    - rewrite Hex, Hload. eexists. reflexivity.
    - rewrite Hex, Hload. unfold bind at 1. unfold lift at 1. simpl.
      destruct (if path_exists env (scaler_path env folder_path) then _ else _);
        simpl; eexists; reflexivity. }
  rewrite load_model_from_folder_cases.
  destruct (List.find _ (h5_candidates env folder_path)) as [h5|].
  - destruct (keras env) as [load|]; [|eexists; reflexivity].
    destruct (load h5) as [m|e0]; [|eexists; reflexivity].
    unfold lift. rewrite bind_of_return. simpl. apply Hc.
  - destruct (List.find _ (skl_candidates env folder_path)) as [q|];
      [|eexists; reflexivity].
    destruct (joblib_load env q) as [[m|]|e0]; try (eexists; reflexivity).
    unfold lift. rewrite bind_of_return. simpl. apply Hc.
Qed.

Lemma unreadable_companion_fails_the_load_witness :
  exists e', result (load_model_from_folder corrupt_scaler_env "models") = Raise e'.
Proof.
  apply (unreadable_companion_fails_the_load corrupt_scaler_env "models"
           "/srv/ids/models/scaler.joblib" (Exn OtherError "invalid load key")).
  - left. reflexivity.
  - reflexivity.
  - reflexivity.
Defined.

(** X8. A model file that deserialises to [None] is reported as if no model
    file had been found. *)
Theorem pickled_none_counts_as_missing (env : Env) (folder_path p : string) :
  Forall (fun q => path_exists env q = false) (h5_candidates env folder_path) ->
  List.find (path_exists env) (skl_candidates env folder_path) = Some p ->
  joblib_load env p = Return None ->
  load_model_from_folder env folder_path = MkPy [] (Raise no_model_found).
Proof.
  intros Hh5 Hfind Hload.
  rewrite load_model_from_folder_cases, (find_absent _ _ Hh5), Hfind, Hload.
  reflexivity.
Qed.

Lemma pickled_none_counts_as_missing_witness :
  load_model_from_folder none_pickle_env "models" = MkPy [] (Raise no_model_found).
Proof.
  apply (pickled_none_counts_as_missing none_pickle_env "models"
           "/srv/ids/models/model.pkl").
  - repeat constructor.
  - reflexivity.
  - reflexivity.
Defined.

(** X9. Whenever the loader returns, the context names the probed folder;
    its framework is "tensorflow" exactly when a [.h5] file exists (and
    TensorFlow is available) and "scikit-learn" otherwise; and each
    companion is [None] when its file is absent and what [joblib.load]
    returned for the file otherwise. *)
Theorem loaded_context_invariant (env : Env) (folder_path : string)
    (model : artifact) (ctx : context) :
  result (load_model_from_folder env folder_path) = Return (model, ctx) ->
  ctx_folder ctx = probed_folder env folder_path
  /\ (ctx_framework ctx = Some "tensorflow"
      /\ Exists (fun p => path_exists env p = true) (h5_candidates env folder_path)
      /\ keras env <> None
      \/ ctx_framework ctx = Some "scikit-learn"
         /\ Forall (fun p => path_exists env p = false) (h5_candidates env folder_path))
  /\ companion env (scaler_path env folder_path) (ctx_scaler ctx)
  /\ companion env (label_encoder_path env folder_path) (ctx_label_encoder ctx).
Proof.
  rewrite load_model_from_folder_cases.
  destruct (List.find _ (h5_candidates env folder_path)) as [h5|] eqn:Hh5.
  - destruct (keras env) as [load|] eqn:Hk; [|discriminate].
    intros H. apply bind_return in H as (m & _ & H).
    apply with_companions_return in H as (_ & Hf & Hfw & Hs & Hl).
    split; [exact Hf|]. split; [|split; assumption].
    left. split; [exact Hfw|]. split; [exact (find_present _ _ _ Hh5) | discriminate].
  - destruct (List.find _ (skl_candidates env folder_path)) as [q|]; [|discriminate].
    intros H. apply bind_return in H as ([m|] & _ & H); [|discriminate].
    apply with_companions_return in H as (_ & Hf & Hfw & Hs & Hl).
    split; [exact Hf|]. split; [|split; assumption].
    right. split; [exact Hfw | exact (find_none_absent _ _ Hh5)].
Qed.

Lemma loaded_context_invariant_witness :
  ctx_folder (Context "/srv/ids/models" None None (Some "tensorflow"))
  = probed_folder keras_folder_env "models"
  /\ companion keras_folder_env (scaler_path keras_folder_env "models") None.
Proof.
  destruct (loaded_context_invariant keras_folder_env "models" logit_model
              (Context "/srv/ids/models" None None (Some "tensorflow")) eq_refl)
    as (Hfolder & _ & Hscaler & _).
  split; [exact Hfolder | exact Hscaler].
Defined.

(** ** The prediction normaliser, continued *)

Lemma bind_ret {A B} (a : A) (k : A -> Py B) : bind (ret a) k = k a.
Proof. unfold bind, ret. simpl. destruct (k a); reflexivity. Qed.

Lemma bind_ext {A B} (m : Py A) (k k' : A -> Py B) :
  (forall a, k a = k' a) -> bind m k = bind m k'.
Proof. intros H. unfold bind. destruct (result m); [rewrite H|]; reflexivity. Qed.

Lemma predict_threat_outcome (env : Env) (features : gmap string pyval)
    (model : option artifact) (r : decision) :
  result (predict_threat env features model) = Return r ->
  exists X conf pred,
    result (prepare_features env features) = Return X
    /\ result (confidence_of model X) = Return conf
    /\ result (class_of model X) = Return pred
    /\ r = make_decision conf pred.
Proof.
  unfold predict_threat. intros H.
  apply bind_return in H as (X & HX & H).
  apply bind_return in H as (conf & Hc & H).
  apply bind_return in H as (pred & Hp & H).
  simpl in H. injection H as <-. eauto 8.
Qed.

(** X10. [predict_threat] reads nine features and nothing else: two feature
    maps that agree on them, an absent one counting as 0, give the same
    answer. *)
Theorem only_nine_features_are_read (env : Env) (f1 f2 : gmap string pyval)
    (model : option artifact) :
  (forall name, In name feature_names -> feature_get f1 name = feature_get f2 name) ->
  predict_threat env f1 model = predict_threat env f2 model.
Proof.
  intros H. unfold predict_threat, prepare_features.
  rewrite (map_ext_in _ _ _ H). reflexivity.
Qed.

Lemma only_nine_features_are_read_witness :
  predict_threat bare_env
    (<["protocol" := VStr "TCP"]> (<["packet_count" := VInt 0]> ∅))
    (Some forest_model)
  = predict_threat bare_env ∅ (Some forest_model).
Proof.
  apply (only_nine_features_are_read bare_env).
  intros name Hname. simpl in Hname.
  repeat (destruct Hname as [<-|Hname]; [reflexivity|]). contradiction.
Defined.

(** X11. In every record that [predict_threat] returns, [attack_type] is
    "anomaly" for a malicious verdict and "benign" otherwise, and
    [inference_time] is 0. *)
Theorem attack_type_follows_verdict (env : Env) (features : gmap string pyval)
    (model : option artifact) (r : decision) :
  result (predict_threat env features model) = Return r ->
  attack_type r = (if is_malicious r then "anomaly" else "benign")
  /\ inference_time r = 0%Z.
Proof.
  intros H. apply predict_threat_outcome in H as (X & conf & pred & _ & _ & _ & ->).
  split; reflexivity.
Qed.

Lemma attack_type_follows_verdict_witness :
  attack_type (make_decision (Fin (4 # 5)) (PyNumber (Fin 1))) = "anomaly".
Proof.
  exact (proj1 (attack_type_follows_verdict bare_env ∅ (Some forest_model)
                  (make_decision (Fin (4 # 5)) (PyNumber (Fin 1))) eq_refl)).
Defined.

(** X12. An exception raised by [model.predict_proba] is not absorbed:
    [predict_threat] raises it. *)
Theorem predict_proba_errors_propagate (env : Env) (features : gmap string pyval)
    (model : option artifact) (out : list string) (X : matrix)
    (f : matrix -> outcome pyobj) (e : exn) :
  prepare_features env features = MkPy out (Return X) ->
  model ≫= predict_proba = Some f ->
  f X = Raise e ->
  predict_threat env features model = MkPy out (Raise e).
Proof.
  intros Hprep Hf He.
  rewrite (predict_threat_prepared env features model out X Hprep).
  unfold confidence_of, has_predict_proba. rewrite Hf. unfold bind, lift; simpl.
  rewrite He. reflexivity.
Qed.

Lemma predict_proba_errors_propagate_witness :
  predict_threat bare_env ∅ (Some failing_proba_model)
  = MkPy [] (Raise (value_error
       "X has 9 features, but the model is expecting 78 features as input.")).
Proof.
  apply (predict_proba_errors_propagate bare_env ∅ (Some failing_proba_model) []
           zero_row
           (fun _ => Raise (value_error
              "X has 9 features, but the model is expecting 78 features as input.")));
    reflexivity.
Defined.

Lemma float32_of_pyval_number (env : Env) (v : pyval) :
  in_float_range v = true -> float32_of_pyval env v = Return (stored_float32 v).
Proof.
  destruct v as [x|n|b|s| |items|entries]; try discriminate.
  - reflexivity.
  - unfold in_float_range, stored_float32. cbn [as_pynum float32_of_pyval float_value].
    intros H. rewrite (float_of_int_in_range n H). reflexivity.
  - intros _. destruct b; vm_compute; reflexivity.
Qed.

Lemma numeric_row (env : Env) (features : gmap string pyval) (names : list string) :
  Forall (fun name => in_float_range (feature_get features name) = true) names ->
  outcome_map (float32_of_pyval env) (map (feature_get features) names)
  = Return (map (fun name => stored_float32 (feature_get features name)) names).
Proof.
  induction 1 as [|name names Hname _ IH]; simpl; [reflexivity|].
  rewrite (float32_of_pyval_number env _ Hname), IH. reflexivity.
Qed.

Lemma existsb_isinf_float32 (row : list number) :
  existsb isinf row = true -> existsb isinf (map float32 row) = true.
Proof.
  induction row as [|x row IH]; simpl; [discriminate|].
  intros H. apply orb_true_iff in H as [H|H].
  - rewrite (float32_keeps_infinite _ H). reflexivity.
  - rewrite (IH H). apply orb_true_r.
Qed.

(** X13. When the nine features are numbers within the float range
    (floats, booleans, integers below [2^1024 - 2^970] in magnitude), one
    of them is stored in float32 as an infinity, and there is no default
    scaler, the one feature row is dropped: a warning for 1 sample is
    printed and the model is handed a matrix without rows.  With no model
    loaded the answer is still the safe default. *)
Theorem infinite_feature_leaves_no_row (env : Env) (features : gmap string pyval) :
  path_exists env "scaler.joblib" = false ->
  Forall (fun name => in_float_range (feature_get features name) = true) feature_names ->
  Exists (fun name => isinf (stored_float32 (feature_get features name)) = true)
    feature_names ->
  prepare_features env features = MkPy [removed_warning 1] (Return [])
  /\ predict_threat env features None = MkPy [removed_warning 1] (Return safe_default).
Proof.
  intros Hscaler Hnum Hinf.
  pose proof (numeric_row env features feature_names Hnum) as Hrow.
  set (row := map (fun name => stored_float32 (feature_get features name)) feature_names)
    in Hrow.
  assert (Hex : existsb isinf row = true).
  { unfold row. clear - Hinf.
    induction Hinf as [name names Hname | name names _ IH]; cbn [map existsb].
    - rewrite Hname. reflexivity.
    - rewrite IH. apply orb_true_r. }
  assert (Hprep : prepare_features env features = MkPy [removed_warning 1] (Return [])).
  { assert (Hpre : preprocess_input (ArrayLike [row]) None
                     = MkPy [removed_warning 1] (Return [])).
    { rewrite preprocess_input_unfold. cbn [array_values astype_float32 map List.filter].
      unfold row_finite. rewrite (existsb_isinf_float32 _ Hex). reflexivity. }
    unfold prepare_features. rewrite Hrow, Hscaler.
    rewrite (bind_silent_return (lift (Return row)) _ row eq_refl eq_refl), bind_ret.
    exact Hpre. }
  split; [exact Hprep|].
  rewrite (predict_threat_prepared env features None _ _ Hprep). reflexivity.
Qed.

Lemma infinite_feature_leaves_no_row_witness :
  predict_threat bare_env (<["bytes_per_second" := VNum PosInf]> ∅) None
  = MkPy ["Warning: 1 samples with infinite values were removed."] (Return safe_default).
Proof.
  refine (proj2 (infinite_feature_leaves_no_row bare_env
                   (<["bytes_per_second" := VNum PosInf]> ∅) eq_refl _ _)).
  - repeat (constructor; [reflexivity|]). constructor.
  - do 4 apply Exists_cons_tl. apply Exists_cons_hd. reflexivity.
Defined.

(** An integer feature beyond the float range is not stored as an
    infinity: building the feature row raises. *)
Example huge_integer_feature_raises :
  predict_threat bare_env (<["byte_count" := VInt (10 ^ 400)]> ∅) (Some forest_model)
  = MkPy [] (Raise (Exn OverflowError "int too large to convert to float")).
Proof. vm_compute. reflexivity. Qed.

Lemma argmax_single_column (n : nat) (d : list number) :
  argmax_axis1 (NdArray [n; 1%nat] d)
  = Return (NdArray [n] (repeat (num_of_nat 0) n)).
Proof.
  unfold argmax_axis1. simpl. do 2 f_equal.
  revert d. induction n as [|n IH]; intros d; simpl; [reflexivity|].
  rewrite IH. reflexivity.
Qed.

Lemma scalar_of_zeros (n : nat) :
  match scalar_of_prediction (NdArray [n] (repeat (num_of_nat 0) n)) with
  | Return x => equals_one (PyNumber x) = false
  | Raise _ => True
  end.
Proof.
  destruct n as [|[|n]]; unfold scalar_of_prediction, size; simpl.
  - exact I.
  - reflexivity.
  - reflexivity.
Qed.

(** X14. A model whose [predict] returns a two-dimensional array with a
    single column (one sigmoid output per row) is never classified
    malicious, whatever the output values: the index of the largest entry
    of each row is 0. *)
Theorem single_output_column_is_never_malicious (env : Env)
    (features : gmap string pyval) (model : option artifact)
    (f : matrix -> outcome pyobj) (n : nat) (d : list number) (r : decision) :
  model ≫= predict = Some f ->
  (forall X, result (prepare_features env features) = Return X ->
             f X = Return (PyArray (NdArray [n; 1%nat] d))) ->
  result (predict_threat env features model) = Return r ->
  is_malicious r = false.
Proof.
  intros Hf Hout H.
  apply predict_threat_outcome in H as (X & conf & pred & HX & _ & Hp & ->).
  specialize (Hout X HX). simpl.
  revert Hp. unfold class_of, call_predict, try_except. rewrite Hf.
  unfold lift. rewrite Hout, bind_of_return.
  cbn -[argmax_axis1 scalar_of_prediction].
  rewrite argmax_single_column.
  cbn -[scalar_of_prediction].
  pose proof (scalar_of_zeros n) as Hz.
  destruct (scalar_of_prediction _) as [x|e]; simpl; intros [= <-];
    [exact Hz | reflexivity].
Qed.

Lemma single_output_column_is_never_malicious_witness :
  is_malicious (make_decision (Fin (99 # 100)) (PyNumber (Fin 0))) = false
  /\ result (predict_threat bare_env ∅ (Some sigmoid_model))
     = Return (make_decision (Fin (99 # 100)) (PyNumber (Fin 0))).
Proof.
  split; [|reflexivity].
  apply (single_output_column_is_never_malicious bare_env ∅ (Some sigmoid_model)
           (fun X => Return (PyArray (NdArray [length X; 1%nat]
                                        (map (fun _ => Fin (99 # 100)) X))))
           1 [Fin (99 # 100)]).
  - reflexivity.
  - intros X [= <-]. reflexivity.
  - reflexivity.
Defined.

(** ** Class prediction for a batch of rows *)

(** X15. With no model passed in, no default model file in the working
    directory that can be loaded ([model.h5] without TensorFlow does not
    count) and no default scaler, [predict] raises the no-predict-method
    error. *)
Theorem predict_without_model_raises (env : Env)
    (inverse_transform : artifact -> option (pyobj -> outcome (list string)))
    (X : array_like) :
  path_exists env "scaler.joblib" = false ->
  path_exists env "label_encoder.joblib" = false ->
  path_exists env "random_forest_model.joblib" = false ->
  path_exists env "model.pkl" = false ->
  path_exists env "model.h5" = false \/ keras env = None ->
  result (Inference.predict env inverse_transform X None None)
  = Raise no_predict_method.
Proof.
  intros Hs Hl Hrf Hpkl Hh5. unfold Inference.predict, default_model.
  rewrite Hs, Hl, Hrf, Hpkl.
  assert (Hm : (if path_exists env "model.h5"
                then match keras env with
                     | Some load_model =>
                         m <- lift (load_model "model.h5") ;; ret (Some m)
                     | None => ret None
                     end
                else ret None) = @ret (option artifact) None).
  { destruct Hh5 as [-> | ->]; [reflexivity|].
    destruct (path_exists env "model.h5"); reflexivity. }
  rewrite Hm, !bind_ret.
  rewrite preprocess_input_unfold. reflexivity.
Qed.

Lemma predict_without_model_raises_witness :
  result (Inference.predict bare_env no_inverse_transform (ArrayLike zero_row) None None)
  = Raise no_predict_method.
Proof.
  apply (predict_without_model_raises bare_env no_inverse_transform (ArrayLike zero_row));
    try reflexivity.
  left. reflexivity.
Defined.

(** X16. With no model passed in, [predict] takes
    [random_forest_model.joblib] from the working directory when that file
    exists, whether or not [model.pkl] exists too: the reverse of the
    loader's order. *)
Theorem predict_prefers_random_forest_file (env : Env)
    (inverse_transform : artifact -> option (pyobj -> outcome (list string)))
    (X : array_like) (model : artifact) (label_encoder : option artifact) :
  path_exists env "random_forest_model.joblib" = true ->
  joblib_load env "random_forest_model.joblib" = Return (Some model) ->
  Inference.predict env inverse_transform X None label_encoder
  = Inference.predict env inverse_transform X (Some model) label_encoder.
Proof.
  intros Hex Hload. unfold Inference.predict, default_model.
  rewrite Hex, Hload. reflexivity.
Qed.

Lemma predict_prefers_random_forest_file_witness :
  Inference.predict cwd_models_env no_inverse_transform (ArrayLike zero_row) None None
  = Inference.predict cwd_models_env no_inverse_transform (ArrayLike zero_row)
      (Some logit_model) None.
Proof.
  apply (predict_prefers_random_forest_file cwd_models_env no_inverse_transform
           (ArrayLike zero_row) logit_model None); reflexivity.
Defined.

(** X17. A label encoder that cannot decode (no [inverse_transform], or one
    that raises) does not fail the call: where no default encoder file
    exists, the answer is the one given without an encoder, the class
    indices. *)
Theorem failing_encoder_falls_back_to_indices (env : Env)
    (inverse_transform : artifact -> option (pyobj -> outcome (list string)))
    (X : array_like) (model : option artifact) (encoder : artifact) :
  path_exists env "label_encoder.joblib" = false ->
  encoder_fails inverse_transform encoder ->
  Inference.predict env inverse_transform X model (Some encoder)
  = Inference.predict env inverse_transform X model None.
Proof.
  intros Hl Hfail. unfold Inference.predict. rewrite Hl.
  apply bind_ext. intros scaler. apply bind_ext. intros model'.
  rewrite !bind_ret.
  apply bind_ext. intros X_scaled. apply bind_ext. intros y_pred.
  apply bind_ext. intros y_idx.
  unfold encoder_fails in Hfail. unfold try_except.
  destruct (inverse_transform encoder) as [f|]; [|reflexivity].
  destruct (Hfail y_idx) as [e He].
  unfold bind, lift; simpl. rewrite He. reflexivity.
Qed.

Lemma failing_encoder_falls_back_to_indices_witness :
  Inference.predict bare_env no_inverse_transform (ArrayLike zero_row)
    (Some forest_model) (Some forest_model)
  = Inference.predict bare_env no_inverse_transform (ArrayLike zero_row)
      (Some forest_model) None.
Proof.
  apply (failing_encoder_falls_back_to_indices bare_env no_inverse_transform
           (ArrayLike zero_row) (Some forest_model) forest_model).
  - reflexivity.
  - exact I.
Defined.

Example predict_returns_class_indices :
  Inference.predict bare_env no_inverse_transform (ArrayLike (zero_row ++ zero_row))
    (Some logit_model) None
  = MkPy [] (Return (ClassIndices (PyArray (NdArray [2%nat] [Fin 1; Fin 1])))).
Proof. reflexivity. Qed.

(** ** The feature extractor, continued *)

Lemma extraction_body_shape (flow : pyval) (features : gmap string pyval) :
  extraction_body flow = Return features ->
  exists entries pps bps avg num,
    flow = VDict entries
    /\ features
       = <["protocol_num" := num]> (<["avg_packet_size" := avg]>
         (<["bytes_per_second" := bps]> (<["packets_per_second" := pps]>
         (copied_features entries)))).
Proof.
  destruct flow as [x|n|b|s| |items|entries]; try discriminate.
  unfold extraction_body, dict_get, obind. fold zero.
  intros H. exists entries. revert H.
  destruct (greater_than_zero _) as [[|]|]; try discriminate;
    repeat (destruct (true_divide _ _); try discriminate);
    destruct (greater_than_zero _) as [[|]|]; try discriminate;
    repeat (destruct (true_divide _ _); try discriminate);
    destruct (protocol_lookup _); try discriminate;
    intros [= <-]; do 4 eexists; split; reflexivity.
Qed.

Lemma extract_features_body (flow : pyval) :
  extract_features flow
  = match extraction_body flow with
    | Return features => MkPy [] (Return features)
    | Raise e => MkPy [extraction_error_line e] (Raise e)
    end.
Proof.
  unfold extract_features, try_except, lift. simpl.
  destruct (extraction_body flow); reflexivity.
Qed.

Lemma tcp_flow_is_extracted :
  exists features, result (extract_features tcp_flow) = Return features.
Proof.
  destruct (extraction_body_numeric
              [("flow_id", VStr "f1");
               ("packet_count", VInt 100); ("byte_count", VInt 50000);
               ("duration_seconds", VInt 10); ("protocol", VStr "TCP");
               ("source_port", VInt 443); ("destination_port", VInt 51000)])
    as (features & Hbody & _); try (vm_compute; reflexivity).
  exists features. rewrite extract_features_body. unfold tcp_flow.
  rewrite Hbody. reflexivity.
Qed.

(** X18. The feature map that [extract_features] returns has exactly ten
    keys: the six copied fields and the four derived ones. *)
Theorem extracted_features_have_ten_keys (flow : pyval) (features : gmap string pyval) :
  result (extract_features flow) = Return features ->
  dom features = feature_keys.
Proof.
  rewrite extract_features_body.
  destruct (extraction_body flow) as [fs|e] eqn:Hbody; simpl; [|discriminate].
  intros [= <-].
  apply extraction_body_shape in Hbody as (entries & pps & bps & avg & num & _ & ->).
  unfold copied_features, feature_keys.
  rewrite !dom_insert_L, dom_empty_L. set_solver.
Qed.

Lemma extracted_features_have_ten_keys_witness :
  exists features,
    result (extract_features tcp_flow) = Return features
    /\ dom features = feature_keys.
Proof.
  destruct tcp_flow_is_extracted as [features H]. exists features. split; [exact H|].
  exact (extracted_features_have_ten_keys tcp_flow features H).
Defined.

(** X19. Whenever extraction returns, the flow was a dictionary and its
    fields are copied unchanged under the canonical names:
    [duration_seconds] as [duration], [source_port] as [src_port],
    [destination_port] as [dst_port], with 0 for an absent field and "TCP"
    for an absent protocol.  Ports are not checked. *)
Theorem extracted_fields_are_copied (flow : pyval) (features : gmap string pyval) :
  result (extract_features flow) = Return features ->
  exists entries,
    flow = VDict entries
    /\ features !! "packet_count" = Some (flow_field entries "packet_count" zero)
    /\ features !! "byte_count" = Some (flow_field entries "byte_count" zero)
    /\ features !! "duration" = Some (flow_field entries "duration_seconds" zero)
    /\ features !! "protocol" = Some (flow_field entries "protocol" (VStr "TCP"))
    /\ features !! "src_port" = Some (flow_field entries "source_port" zero)
    /\ features !! "dst_port" = Some (flow_field entries "destination_port" zero).
Proof.
  rewrite extract_features_body.
  destruct (extraction_body flow) as [fs|e] eqn:Hbody; simpl; [|discriminate].
  intros [= <-].
  apply extraction_body_shape in Hbody as (entries & pps & bps & avg & num & -> & ->).
  exists entries. unfold copied_features.
  repeat split; simplify_map_eq; reflexivity.
Qed.

Lemma extracted_fields_are_copied_witness :
  exists features entries,
    result (extract_features tcp_flow) = Return features
    /\ tcp_flow = VDict entries
    /\ features !! "src_port" = Some (flow_field entries "source_port" zero)
    /\ features !! "duration" = Some (flow_field entries "duration_seconds" zero).
Proof.
  destruct tcp_flow_is_extracted as [features H].
  destruct (extracted_fields_are_copied tcp_flow features H)
    as (entries & Hflow & _ & _ & Hdur & _ & Hsrc & _).
  exists features, entries. repeat split; assumption.
Defined.

Lemma float_of_int_error (n : Z) (e : exn) :
  float_of_int n = Raise e -> exn_cls e = OverflowError.
Proof.
  unfold float_of_int. destruct (round_to binary64 (inject_Z n)); [discriminate|].
  intros [= <-]. reflexivity.
Qed.

(** A division behind its guard fails on an operand that is not a number
    or on an integer beyond the float range, never on the divisor. *)
Lemma true_divide_guarded (a b : pyval) (e : exn) :
  greater_than_zero b = Return true ->
  true_divide a b = Raise e ->
  exn_cls e = TypeError \/ exn_cls e = OverflowError.
Proof.
  unfold greater_than_zero, as_number, true_divide.
  destruct (as_pynum b) as [[n|y]|]; [| |discriminate]; intros [= Hpos];
    (destruct (as_pynum a) as [[m|x]|];
     [| |intros [= <-]; left; reflexivity]).
  - apply positive_int in Hpos. unfold int_true_divide.
    destruct (Z.eqb_spec n 0) as [->|_]; [lia|].
    destruct (round_to binary64 _); [discriminate|].
    intros [= <-]. right. reflexivity.
  - cbn [float_of_pynum obind].
    destruct (float_of_int n) as [y|e'] eqn:Hn; cbn [obind].
    + unfold float_true_divide.
      rewrite (float_of_int_positive n y (positive_int n Hpos) Hn). discriminate.
    + intros [= <-]. right. exact (float_of_int_error n e' Hn).
  - cbn [float_of_pynum].
    destruct (float_of_int m) as [x|e'] eqn:Hm; cbn [obind].
    + unfold float_true_divide. rewrite (positive_not_zero _ Hpos). discriminate.
    + intros [= <-]. right. exact (float_of_int_error m e' Hm).
  - cbn [float_of_pynum obind]. unfold float_true_divide.
    rewrite (positive_not_zero _ Hpos). discriminate.
Qed.

Lemma protocol_lookup_error (protocol : pyval) (e : exn) :
  protocol_lookup protocol = Raise e -> exn_cls e = TypeError.
Proof.
  destruct protocol; simpl; try discriminate; intros [= <-]; reflexivity.
Qed.

Lemma greater_than_zero_error (v : pyval) (e : exn) :
  greater_than_zero v = Raise e -> exn_cls e = TypeError.
Proof.
  unfold greater_than_zero. destruct (as_number v); [discriminate|].
  intros [= <-]. reflexivity.
Qed.

Lemma extraction_body_error (flow : pyval) (e : exn) :
  extraction_body flow = Raise e ->
  exn_cls e = AttributeError \/ exn_cls e = TypeError \/ exn_cls e = OverflowError.
Proof.
  destruct flow as [x|n|b|s| |items|entries];
    try (intros [= <-]; left; reflexivity).
  unfold extraction_body, dict_get, obind.
  set (pc := default zero (assoc_get entries "packet_count")).
  set (bc := default zero (assoc_get entries "byte_count")).
  set (dur := default zero (assoc_get entries "duration_seconds")).
  set (proto := default (VStr "TCP") (assoc_get entries "protocol")).
  intros H. right. revert H.
  destruct (greater_than_zero dur) as [[|]|e1] eqn:Hd;
    [| |intros [= <-]; left; exact (greater_than_zero_error _ _ Hd)].
  - destruct (true_divide pc dur) as [pps|e2] eqn:H1;
      [|intros [= <-]; exact (true_divide_guarded _ _ _ Hd H1)].
    destruct (true_divide bc dur) as [bps|e2] eqn:H2;
      [|intros [= <-]; exact (true_divide_guarded _ _ _ Hd H2)].
    destruct (greater_than_zero pc) as [[|]|e1] eqn:Hp;
      [| |intros [= <-]; left; exact (greater_than_zero_error _ _ Hp)].
    + destruct (true_divide bc pc) as [avg|e2] eqn:H3;
        [|intros [= <-]; exact (true_divide_guarded _ _ _ Hp H3)].
      destruct (protocol_lookup proto) as [num|e2] eqn:H4; [discriminate|].
      intros [= <-]. left. exact (protocol_lookup_error _ _ H4).
    + destruct (protocol_lookup proto) as [num|e2] eqn:H4; [discriminate|].
      intros [= <-]. left. exact (protocol_lookup_error _ _ H4).
  - destruct (greater_than_zero pc) as [[|]|e1] eqn:Hp;
      [| |intros [= <-]; left; exact (greater_than_zero_error _ _ Hp)].
    + destruct (true_divide bc pc) as [avg|e2] eqn:H3;
        [|intros [= <-]; exact (true_divide_guarded _ _ _ Hp H3)].
      destruct (protocol_lookup proto) as [num|e2] eqn:H4; [discriminate|].
      intros [= <-]. left. exact (protocol_lookup_error _ _ H4).
    + destruct (protocol_lookup proto) as [num|e2] eqn:H4; [discriminate|].
      intros [= <-]. left. exact (protocol_lookup_error _ _ H4).
Qed.

(** X20. [extract_features] never fails with a ZeroDivisionError: each
    division is guarded.  The exceptions it raises are an AttributeError
    (the flow is not a dictionary), a TypeError (a field of the wrong type)
    and an OverflowError (an integer counter beyond the float range in a
    division). *)
Theorem extraction_raises_no_division_error (flow : pyval) (e : exn) :
  result (extract_features flow) = Raise e ->
  exn_cls e <> ZeroDivisionError
  /\ (exn_cls e = AttributeError \/ exn_cls e = TypeError
      \/ exn_cls e = OverflowError).
Proof.
  rewrite extract_features_body.
  destruct (extraction_body flow) as [fs|e'] eqn:Hbody; simpl; [discriminate|].
  intros [= <-]. pose proof (extraction_body_error flow e' Hbody) as H.
  split; [|exact H]. destruct H as [-> | [-> | ->]]; discriminate.
Qed.

Lemma extraction_raises_no_division_error_witness :
  exn_cls (type_error "'>' not supported between these instances") = TypeError.
Proof.
  destruct (extraction_raises_no_division_error malformed_flow
              (type_error "'>' not supported between these instances") eq_refl)
    as [_ [H | [H | H]]]; [discriminate H | exact H | discriminate H].
Defined.

(** X21. Extraction prints nothing when it returns; when it fails it prints
    one line, "Feature extraction error" with the message of the
    exception, and raises that same exception. *)
Theorem extraction_errors_are_logged_once (flow : pyval) :
  (forall features, result (extract_features flow) = Return features ->
                    stdout (extract_features flow) = [])
  /\ (forall e, result (extract_features flow) = Raise e ->
                stdout (extract_features flow) = [extraction_error_line e]).
Proof.
  rewrite extract_features_body.
  destruct (extraction_body flow) as [fs|e']; simpl; split;
    intros ? H; try discriminate; injection H as <-; reflexivity.
Qed.

Lemma true_divide_not_a_number (a b : pyval) :
  as_number a = None ->
  true_divide a b = Raise (type_error "unsupported operand type(s) for /").
Proof.
  unfold as_number, true_divide.
  destruct (as_pynum a) as [[m|x]|]; [discriminate | discriminate | reflexivity].
Qed.

(** X22. A flow whose [duration_seconds] or [packet_count] is present and
    not a number is rejected with a TypeError, whatever its other fields. *)
Theorem non_numeric_counter_is_rejected (entries : list (string * pyval)) :
  flow_number entries "duration_seconds" = None
  \/ flow_number entries "packet_count" = None ->
  exists e, result (extract_features (VDict entries)) = Raise e
            /\ exn_cls e = TypeError.
Proof.
  unfold flow_number. intros H. rewrite extract_features_body.
  assert (Hbody : exists e, extraction_body (VDict entries) = Raise e
                            /\ exn_cls e = TypeError).
  { unfold extraction_body, dict_get, obind, greater_than_zero.
    destruct (as_number (default zero (assoc_get entries "duration_seconds")))
      as [dur|] eqn:Hd.
    - destruct H as [H|H]; [discriminate|].
      destruct (num_ltb (Fin 0) dur).
      + rewrite (true_divide_not_a_number _ _ H). eexists. split; reflexivity.
      + rewrite H. eexists. split; reflexivity.
    - eexists. split; reflexivity. }
  destruct Hbody as (e & -> & He). exists e. split; [reflexivity | exact He].
Qed.

Lemma non_numeric_counter_is_rejected_witness :
  exists e, result (extract_features malformed_flow) = Raise e
            /\ exn_cls e = TypeError.
Proof.
  apply (non_numeric_counter_is_rejected
           [("flow_id", VStr "f3"); ("duration_seconds", VStr "ten")]).
  left. reflexivity.
Defined.

(** X23. [byte_count] is only looked at when it is divided: for a flow
    whose duration and packet count are not positive, extraction returns
    whatever [byte_count] holds, copies it unchanged and sets the three
    derived rates to 0. *)
Theorem byte_count_is_unchecked_without_volume (entries : list (string * pyval)) :
  not_positive entries "duration_seconds" ->
  not_positive entries "packet_count" ->
  hashable (flow_field entries "protocol" (VStr "TCP")) = true ->
  exists features,
    extract_features (VDict entries) = MkPy [] (Return features)
    /\ features !! "byte_count" = Some (flow_field entries "byte_count" zero)
    /\ features !! "packets_per_second" = Some zero
    /\ features !! "bytes_per_second" = Some zero
    /\ features !! "avg_packet_size" = Some zero.
Proof.
  unfold not_positive, flow_number, flow_field.
  intros (dur & Hdur & Hd) (pc & Hpc & Hp) Hhash.
  rewrite extract_features_body.
  unfold extraction_body, dict_get, obind, greater_than_zero.
  rewrite Hdur, Hd, Hpc, Hp, (protocol_lookup_table _ Hhash).
  eexists. split; [reflexivity|].
  repeat split; simplify_map_eq; reflexivity.
Qed.

Lemma byte_count_is_unchecked_without_volume_witness :
  exists features,
    extract_features (VDict odd_idle_flow) = MkPy [] (Return features)
    /\ features !! "byte_count" = Some (VStr "n/a")
    /\ features !! "bytes_per_second" = Some zero.
Proof.
  destruct (byte_count_is_unchecked_without_volume odd_idle_flow)
    as (features & H & Hbc & _ & Hbps & _).
  - exists (Fin 0). split; reflexivity.
  - exists (Fin 0). split; reflexivity.
  - reflexivity.
  - exists features. repeat split; assumption.
Defined.

(** ** The endpoints *)

Lemma try_except_return {A} (body : Py A) (handler : exn -> Py A) (a : A) :
  result (try_except body handler) = Return a ->
  result body = Return a
  \/ exists e, result body = Raise e /\ result (handler e) = Return a.
Proof.
  unfold try_except. destruct (result body) as [b|e] eqn:E.
  - rewrite E. intros [= <-]. left. reflexivity.
  - simpl. intros H. right. eauto.
Qed.

Lemma for_each_return {A B} (f : A -> Py B) (l : list A) (ys : list B) :
  result (for_each f l) = Return ys ->
  Forall2 (fun x y => result (f x) = Return y) l ys.
Proof.
  revert ys. induction l as [|x l IH]; intros ys; simpl.
  - intros [= <-]. constructor.
  - intros H. apply bind_return in H as (y & Hy & H).
    apply bind_return in H as (ys' & Hys & H).
    simpl in H. injection H as <-. constructor; [exact Hy | apply IH, Hys].
Qed.

Lemma predict_flow_entry (env : Env) (model : option artifact) (flow : pyval)
    (entry : batch_entry) :
  result (predict_flow env model flow) = Return entry ->
  entry_of_flow env model flow entry.
Proof.
  unfold predict_flow. intros H.
  apply bind_return in H as (features & Hf & H).
  apply bind_return in H as (d & Hd & H).
  apply bind_return in H as (flow_id & Hid & H).
  simpl in H. injection H as <-.
  destruct flow as [x|n|b|s| |items|entries]; try discriminate.
  simpl in Hid. injection Hid as <-.
  exists entries, features, d. repeat split; assumption.
Qed.

(** The body of the batch endpoint returns only a 400 or a 200 answer. *)
Lemma predict_batch_return (env : Env) (model : option artifact) (data : pyval)
    (r : response) :
  result (predict_batch env model data) = Return r ->
  r = Response 400 (ErrorBody "No flows data provided")
  \/ (exists msg, r = Response 500 (ErrorBody msg))
  \/ exists flows items predictions,
       get_flows data = Return flows
       /\ iterate flows = Return items
       /\ result (for_each (predict_flow env model) items) = Return predictions
       /\ r = Response 200 (BatchBody predictions (length predictions)
                              (count_malicious predictions) (now_isoformat env)).
Proof.
  unfold predict_batch. intros H.
  apply try_except_return in H as [H | (e & _ & H)].
  - apply bind_return in H as (missing & _ & H).
    destruct missing.
    + simpl in H. injection H as <-. left. reflexivity.
    + apply bind_return in H as (flows & Hflows & H).
      apply bind_return in H as (items & Hitems & H).
      apply bind_return in H as (predictions & Hp & H).
      simpl in H. injection H as <-. right. right.
      exists flows, items, predictions. repeat split; assumption.
  - simpl in H. injection H as <-. right. left. eauto.
Qed.

(** X24. The batch endpoint never lets an exception out: for every request
    body, model and environment it returns a response, with status 200,
    400 or 500. *)
Theorem batch_always_answers (env : Env) (model : option artifact) (data : pyval) :
  exists r, result (predict_batch env model data) = Return r /\ answered (status r).
Proof.
  assert (Hret : exists r, result (predict_batch env model data) = Return r).
  { unfold predict_batch. apply try_except_returns. intros e. eexists. reflexivity. }
  destruct Hret as [r Hr]. exists r. split; [exact Hr|].
  apply predict_batch_return in Hr
    as [-> | [[msg ->] | (flows & items & ps & _ & _ & _ & ->)]];
    unfold answered; simpl; auto.
Qed.

(** X25. A request body that is empty (null, false, 0, an empty string,
    list or object) or an object without a [flows] key is answered with
    status 400 and "No flows data provided"; nothing is printed. *)
Theorem batch_without_flows_is_rejected (env : Env) (model : option artifact)
    (data : pyval) :
  truthy data = false
  \/ (exists entries, data = VDict entries /\ assoc_get entries "flows" = None) ->
  predict_batch env model data
  = MkPy [] (Return (Response 400 (ErrorBody "No flows data provided"))).
Proof.
  intros [H | (entries & -> & H)]; unfold predict_batch.
  - rewrite H. reflexivity.
  - destruct (truthy (VDict entries)); [|reflexivity].
    unfold contains_flows. rewrite H. reflexivity.
Qed.

Lemma batch_without_flows_is_rejected_witness :
  predict_batch bare_env None (VDict [("flow", tcp_flow)])
  = MkPy [] (Return (Response 400 (ErrorBody "No flows data provided"))).
Proof.
  apply (batch_without_flows_is_rejected bare_env None (VDict [("flow", tcp_flow)])).
  right. eexists. split; reflexivity.
Defined.

Lemma filter_length_le {A} (p : A -> bool) (l : list A) :
  (length (List.filter p l) <= length l)%nat.
Proof.
  induction l as [|x l IH]; simpl; [lia|]. destruct (p x); simpl; lia.
Qed.

(** X26. Every 200 answer of the batch endpoint is consistent:
    [total_flows] is the number of entries, [malicious_count] is the number
    of entries marked malicious and does not exceed [total_flows], each
    entry is marked malicious exactly when its prediction is "malicious",
    and the timestamp is the current time. *)
Theorem batch_answer_is_consistent (env : Env) (model : option artifact)
    (data : pyval) (predictions : list batch_entry) (total malicious : nat)
    (timestamp : string) :
  result (predict_batch env model data)
  = Return (Response 200 (BatchBody predictions total malicious timestamp)) ->
  total = length predictions
  /\ malicious = length (List.filter entry_is_malicious predictions)
  /\ (malicious <= total)%nat
  /\ Forall (fun p => entry_is_malicious p
                      = String.eqb (entry_prediction p) "malicious") predictions
  /\ timestamp = now_isoformat env.
Proof.
  intros H. apply predict_batch_return in H
    as [H | [[msg H] | (flows & items & ps & _ & _ & Hps & H)]]; try discriminate.
  injection H as <- -> -> ->.
  split; [reflexivity|]. split; [reflexivity|].
  split; [apply filter_length_le|]. split; [|reflexivity].
  apply for_each_return in Hps. clear -Hps.
  induction Hps as [|flow p items ps Hp _ IH]; [constructor|].
  constructor; [|exact IH].
  apply predict_flow_entry in Hp as (entries & features & d & _ & _ & Hd & ->).
  apply predict_threat_outcome in Hd as (X & conf & pred & _ & _ & _ & ->).
  simpl. destruct (equals_one pred); reflexivity.
Qed.

Lemma batch_answer_is_consistent_witness :
  (2 = length [BatchEntry (VStr "f1") "malicious" (Fin (4 # 5)) true "anomaly";
               BatchEntry (VStr "f2") "malicious" (Fin (4 # 5)) true "anomaly"])%nat.
Proof.
  exact (proj1 (batch_answer_is_consistent bare_env (Some forest_model)
                  (VDict [("flows", VList [tcp_flow; idle_flow])])
                  [BatchEntry (VStr "f1") "malicious" (Fin (4 # 5)) true "anomaly";
                   BatchEntry (VStr "f2") "malicious" (Fin (4 # 5)) true "anomaly"]
                  2 2 "2024-01-01T00:00:00" eq_refl)).
Defined.

(** X27. In a 200 answer to a list of flows, the i-th entry belongs to the
    i-th flow: it carries that flow's [flow_id] ("unknown" when the flow
    has none) and the prediction, confidence, verdict and attack type that
    [predict_threat] returns for the features extracted from that flow. *)
Theorem batch_entries_follow_the_flows (env : Env) (model : option artifact)
    (entries : list (string * pyval)) (flows : list pyval)
    (predictions : list batch_entry) (total malicious : nat) (timestamp : string) :
  assoc_get entries "flows" = Some (VList flows) ->
  result (predict_batch env model (VDict entries))
  = Return (Response 200 (BatchBody predictions total malicious timestamp)) ->
  Forall2 (entry_of_flow env model) flows predictions.
Proof.
  intros Hflows H. apply predict_batch_return in H
    as [H | [[msg H] | (flows' & items & ps & Hget & Hit & Hps & H)]];
    try discriminate.
  injection H as <- _ _ _.
  unfold get_flows in Hget. rewrite Hflows in Hget. injection Hget as <-.
  simpl in Hit. injection Hit as <-.
  apply for_each_return in Hps. clear Hflows.
  induction Hps as [|flow p items ps Hp _ IH]; [constructor|].
  constructor; [|exact IH].
  apply predict_flow_entry, Hp.
Qed.

Lemma batch_entries_follow_the_flows_witness :
  Forall2 (entry_of_flow bare_env (Some forest_model)) [tcp_flow; idle_flow]
    [BatchEntry (VStr "f1") "malicious" (Fin (4 # 5)) true "anomaly";
     BatchEntry (VStr "f2") "malicious" (Fin (4 # 5)) true "anomaly"].
Proof.
  apply (batch_entries_follow_the_flows bare_env (Some forest_model)
           [("flows", VList [tcp_flow; idle_flow])] [tcp_flow; idle_flow]
           _ 2 2 "2024-01-01T00:00:00"); reflexivity.
Defined.





(** X29. The single-flow endpoint never lets an exception out either: it
    returns a response with status 200, 400 or 500, and the status is 400,
    with "No input data provided", exactly for an empty request body. *)
Theorem predict_endpoint_always_answers (env : Env) (model : option artifact)
    (data : pyval) :
  exists r,
    result (predict_endpoint env model data) = Return r
    /\ answered (predict_status r)
    /\ (predict_status r = 400%nat <-> truthy data = false)
    /\ (truthy data = false ->
        r = PredictResponse 400 (PredictError "No input data provided")).
Proof.
  unfold predict_endpoint, answered.
  destruct (truthy data); simpl negb; cbv iota.
  - match goal with |- context [try_except ?b ?h] =>
      destruct (try_except_returns b h) as [r Hr];
        [intros e; eexists; reflexivity|]
    end.
    exists r. split; [exact Hr|].
    apply try_except_return in Hr as [Hr | (e & _ & Hr)].
    + apply bind_return in Hr as (features & _ & Hr).
      apply bind_return in Hr as (d & _ & Hr).
      simpl in Hr. injection Hr as <-. simpl.
      split; [auto|]. split; [split; discriminate | discriminate].
    + simpl in Hr. injection Hr as <-. simpl.
      split; [auto|]. split; [split; discriminate | discriminate].
  - eexists. split; [reflexivity|]. simpl.
    split; [auto|]. split; [split; reflexivity | reflexivity].
Qed.

(** X30. For a non-empty body the single-flow endpoint answers 200 with the
    fields of the decision that [predict_threat] returns for the extracted
    features and the current time; when extraction or prediction raises,
    it answers 500 with "Prediction error: " and the exception's
    message. *)
Theorem predict_endpoint_reports_the_decision (env : Env) (model : option artifact)
    (data : pyval) :
  truthy data = true ->
  (forall features d,
      result (extract_features data) = Return features ->
      result (predict_threat env features model) = Return d ->
      result (predict_endpoint env model data)
      = Return (PredictResponse 200
                  (PredictResult (prediction d) (confidence d) (is_malicious d)
                     (attack_type d) (inference_time d) (now_isoformat env))))
  /\ (forall e,
        result (extract_features data) = Raise e
        \/ (exists features, result (extract_features data) = Return features
                             /\ result (predict_threat env features model) = Raise e) ->
        result (predict_endpoint env model data)
        = Return (PredictResponse 500
                    (PredictError ("Prediction error: " ++ exn_msg e)))).
Proof.
  intros Ht. unfold predict_endpoint, try_except. rewrite Ht. simpl negb. cbv iota.
  split.
  - intros features d Hf Hd. unfold bind. rewrite Hf. simpl. rewrite Hd. reflexivity.
  - intros e [Hf | (features & Hf & Hd)]; unfold bind; rewrite Hf; simpl;
      [|rewrite Hd]; reflexivity.
Qed.

Lemma predict_endpoint_reports_the_decision_witness :
  result (predict_endpoint bare_env (Some forest_model) tcp_flow)
  = Return (PredictResponse 200
              (PredictResult "malicious" (Fin (4 # 5)) true "anomaly" 0
                 "2024-01-01T00:00:00")).
Proof.
  refine (proj1 (predict_endpoint_reports_the_decision bare_env (Some forest_model)
                   tcp_flow eq_refl) tcp_features
            (make_decision (Fin (4 # 5)) (PyNumber (Fin 1))) _ _);
    vm_compute; reflexivity.
Defined.
